(** * pytest_cov: lifecycle hooks of the coverage plugin

    A shallow embedding of [src/pytest_cov.py].  The plugin object is a
    mutable Python object that is shared between the plugin manager and the
    hook caller, so plugin objects live in a store and hooks receive a
    reference.  Every call that leaves the module (into [cov_core],
    [cov_core_init] or the plugin manager) is recorded in a trace; what those
    collaborators answer is part of the world the hooks run in.  The
    definitions come first, the properties of the hooks after them. *)

From Stdlib Require Import ZArith QArith Qabs Ascii String DecimalString List Lia.
From stdpp Require Import base option list strings gmap pretty.

Local Open Scope Z_scope.

(** ** Python values *)

(** The dynamically typed values the hooks look at: option attributes that
    another plugin may or may not have declared, entries of the [slaveinput]
    dictionary, node identifiers, values of parsed options (the only lists
    are lists of strings). *)
Inductive pyval :=
| PyNone
| PyBool (b : bool)
| PyInt (z : Z)
| PyStr (s : string)
| PyList (l : list string).

#[global] Instance pyval_eq_dec : EqDecision pyval.
Proof. solve_decision. Defined.

(** Truth value testing: [None], [False], [0], [''] and [[]] are false. *)
Definition truthy (v : pyval) : bool :=
  match v with
  | PyNone => false
  | PyBool b => b
  | PyInt z => negb (z =? 0)
  | PyStr s => negb (String.eqb s "")
  | PyList l => negb (bool_decide (l = []))
  end.

(** [a or b] evaluates to [a] when [a] is true and to [b] otherwise. *)
Definition py_or (a b : pyval) : pyval := if truthy a then a else b.

(** [a == b]; a [bool] is an [int] ([True == 1]), other kinds never mix. *)
Definition py_eq (a b : pyval) : bool :=
  match a, b with
  | PyNone, PyNone => true
  | PyBool x, PyBool y => Bool.eqb x y
  | PyBool x, PyInt y | PyInt y, PyBool x => Z.b2z x =? y
  | PyInt x, PyInt y => x =? y
  | PyStr x, PyStr y => String.eqb x y
  | PyList x, PyList y => bool_decide (x = y)
  | _, _ => false
  end.

Definition py_ne (a b : pyval) : bool := negb (py_eq a b).

(** [getattr(o, name, default)] on an attribute that may be missing. *)
Definition getattr_default (attr : option pyval) (d : pyval) : pyval :=
  default d attr.

(** [l or d] for a list [l]: the empty list is false. *)
Definition list_or (l d : list string) : list string :=
  if truthy (PyList l) then l else d.

(** ** Percentages and their rendering *)

(** The total returned by the coverage library is a Python number.  A finite
    float denotes a rational; Python compares a float with an [int] by exact
    value, and ['%.2f'] prints the decimal that is nearest to the exact value,
    ties going to the even neighbour.  Both are functions of the rational
    alone, hence the total is modelled in [Q]. *)

(** Nearest integer to a non-negative rational, ties to even. *)
Definition round_half_even (q : Q) : Z :=
  let n := Qnum q in
  let d := Z.pos (Qden q) in
  let f := n / d in
  match 2 * (n mod d) ?= d with
  | Lt => f
  | Eq => if Z.even f then f else f + 1
  | Gt => f + 1
  end.

Definition two_digits (n : Z) : string :=
  if n <? 10 then "0" +:+ pretty n else pretty n.

(** ['%d' % z] *)
Definition fmt_d (z : Z) : string := pretty z.

(** ['%.2f' % q] *)
Definition fmt_2f (q : Q) : string :=
  let c := round_half_even (Qabs q * 100)%Q in
  (if Qnum q <? 0 then "-" else "") +:+
  pretty (c / 100) +:+ "." +:+ two_digits (c mod 100).

(** [('Required test coverage of %d%% not reached. Total coverage: %.2f%%')
     % (cov_min, total)] *)
Definition coverage_message (cov_min : Z) (total : Q) : string :=
  "Required test coverage of " +:+ fmt_d cov_min +:+
  "% not reached. Total coverage: " +:+ fmt_2f total +:+ "%".

(** Strings without a percent sign, as the digits of a number are. *)
Fixpoint plain (s : string) : Prop :=
  match s with
  | EmptyString => True
  | String a s' => a <> "%"%char /\ plain s'
  end.

(** ** Exceptions *)

Inductive exn :=
| CoverageError (msg : string)   (* class CoverageError(Exception) *)
| TypeError                      (* ordering a number against None, Python 3 *)
| AttributeError                 (* attribute access on None *)
| UsageError                     (* the option parser refuses the command line *)
| ValueError.                    (* the plugin manager refuses a taken name *)

Inductive outcome (A : Type) :=
| Returned (a : A)
| Raised (e : exn).
Arguments Returned {A} a.
Arguments Raised {A} e.

(** ** Options *)

(** The namespace the option parser produces.  The first five attributes are
    declared by [pytest_addoption]; [numprocesses], [distload] and [dist]
    belong to the distribution plugin and exist only when it is installed. *)
Record Options := {
  cov_source : list string;
  cov_report : list string;
  cov_config : string;
  no_cov_on_fail : bool;
  cov_min : option Z;
  numprocesses : option pyval;
  distload : option pyval;
  dist : option pyval
}.

Record Config := {
  cfg_option : Options;                       (* config.option *)
  slaveinput : option (gmap string pyval)     (* present on a worker only *)
}.

Record Session := {
  config : Config;
  nodeid : pyval
}.

(** ** The coverage library *)

(** A handle on a coverage engine instance ([coverage.coverage(...)]). *)
Inductive engine := Engine (id : N).

#[global] Instance engine_eq_dec : EqDecision engine.
Proof. solve_decision. Defined.

(** The controllers of [cov_core], seen from the plugin: the class, the
    constructor arguments and the [cov] attribute, which is [None] until
    [start()] has run. *)
Module cov_core.

Inductive controller_cls := Central | DistMaster | DistSlave.

(** The [config] argument is either the session's config or the stand-in
    object that [CovPlugin.start] builds around its options. *)
Inductive config_arg :=
| FakeConfig (option_ : Options)
| SessionConfig (c : Config).

Record Controller := {
  cls : controller_cls;
  cov_source : list string;
  cov_report : list string;
  cov_config : string;
  config : config_arg;
  nodeid : pyval;
  cov : option engine
}.

(** The object [controller_cls(cov_source, cov_report, cov_config, config,
    nodeid)] *)
Definition new (cls : controller_cls) (cov_source cov_report : list string)
    (cov_config : string) (config : config_arg) (nodeid : pyval)
  : Controller :=
  {| cls := cls; cov_source := cov_source; cov_report := cov_report;
     cov_config := cov_config; config := config; nodeid := nodeid;
     cov := None |}.

(** The controller once [start()] has bound the engine [e] to it. *)
Definition started (e : engine) (c : Controller) : Controller :=
  {| cls := cls c; cov_source := cov_source c; cov_report := cov_report c;
     cov_config := cov_config c; config := config c; nodeid := nodeid c;
     cov := Some e |}.

End cov_core.

(** ** The plugin object *)

Record CovPlugin := {
  pid : option Z;
  cov : option engine;
  cov_controller : option cov_core.Controller;
  failed : bool;
  options : Options
}.

Definition set_pid (v : option Z) (p : CovPlugin) : CovPlugin :=
  {| pid := v; cov := cov p; cov_controller := cov_controller p;
     failed := failed p; options := options p |}.

Definition set_cov (v : option engine) (p : CovPlugin) : CovPlugin :=
  {| pid := pid p; cov := v; cov_controller := cov_controller p;
     failed := failed p; options := options p |}.

Definition set_cov_controller (v : option cov_core.Controller) (p : CovPlugin)
  : CovPlugin :=
  {| pid := pid p; cov := cov p; cov_controller := v;
     failed := failed p; options := options p |}.

Definition set_failed (v : bool) (p : CovPlugin) : CovPlugin :=
  {| pid := pid p; cov := cov p; cov_controller := cov_controller p;
     failed := v; options := options p |}.

(** ** The world *)

(** Plugin objects are referred to by a [positive]. *)

(** Calls that leave the module, in the order they happen. *)
Inductive Event :=
| EvNew (c : cov_core.Controller)              (* controller_cls(...) *)
| EvStart (c : cov_core.Controller)            (* controller.start() *)
| EvConfigureNode (c : cov_core.Controller) (node : pyval)
| EvTestNodeDown (c : cov_core.Controller) (node error : pyval)
| EvFinish (c : cov_core.Controller)           (* controller.finish() *)
| EvSummary (c : cov_core.Controller)          (* controller.summary(stream) *)
| EvInit (result : option engine)              (* cov_core_init.init() *)
| EvMultiprocessingFinish (e : engine)         (* cov_core.multiprocessing_finish(cov) *)
| EvRegister (name : string) (plugin : positive).
                                               (* pluginmanager.register(plugin, name) *)

#[global] Instance Event_eq_dec : EqDecision Event.
Proof.
  assert (EqDecision Options) by solve_decision.
  assert (EqDecision Config) by solve_decision.
  assert (EqDecision cov_core.controller_cls) by solve_decision.
  assert (EqDecision cov_core.config_arg) by solve_decision.
  assert (EqDecision cov_core.Controller) by solve_decision.
  solve_decision.
Defined.

Record World := {
  os_pid : Z;                   (* what os.getpid() returns in this process *)
  python3 : bool;               (* the interpreter orders numbers against None
                                   (Python 2) or refuses to (Python 3) *)
  init_env : bool;              (* cov_core_init.init() finds its environment
                                   and starts an engine, or returns None *)
  summary_total : cov_core.Controller -> Q;
                                (* the total that summary() reports *)
  next_engine : N;              (* engines created so far *)
  heap : gmap positive CovPlugin;      (* the plugin objects *)
  plugins : gmap string positive;      (* the plugin manager's registry *)
  trace : list Event
}.

Definition set_os_pid (v : Z) (w : World) : World :=
  {| os_pid := v; python3 := python3 w; init_env := init_env w;
     summary_total := summary_total w; next_engine := next_engine w;
     heap := heap w; plugins := plugins w; trace := trace w |}.

Definition set_next_engine (v : N) (w : World) : World :=
  {| os_pid := os_pid w; python3 := python3 w; init_env := init_env w;
     summary_total := summary_total w; next_engine := v;
     heap := heap w; plugins := plugins w; trace := trace w |}.

Definition set_heap (v : gmap positive CovPlugin) (w : World) : World :=
  {| os_pid := os_pid w; python3 := python3 w; init_env := init_env w;
     summary_total := summary_total w; next_engine := next_engine w;
     heap := v; plugins := plugins w; trace := trace w |}.

Definition set_plugins (v : gmap string positive) (w : World) : World :=
  {| os_pid := os_pid w; python3 := python3 w; init_env := init_env w;
     summary_total := summary_total w; next_engine := next_engine w;
     heap := heap w; plugins := v; trace := trace w |}.

Definition set_trace (v : list Event) (w : World) : World :=
  {| os_pid := os_pid w; python3 := python3 w; init_env := init_env w;
     summary_total := summary_total w; next_engine := next_engine w;
     heap := heap w; plugins := plugins w; trace := v |}.

(** ** Hooks as computations on the world *)

(** A hook either returns or raises; in both cases the world carries the
    mutations made so far. *)
Definition M (A : Type) : Type := World -> outcome A * World.

#[global] Instance M_ret : MRet M := fun A a w => (Returned a, w).

#[global] Instance M_bind : MBind M := fun A B f m w =>
  match m w with
  | (Returned a, w') => f a w'
  | (Raised e, w') => (Raised e, w')
  end.

Definition raise {A} (e : exn) : M A := fun w => (Raised e, w).

Definition emit (ev : Event) : M unit :=
  fun w => (Returned (), set_trace (trace w ++ [ev]) w).

(** Reading and updating the world. *)
Definition ask {A} (f : World -> A) : M A := fun w => (Returned (f w), w).

Definition modify (f : World -> World) : M unit := fun w => (Returned (), f w).

(** [os.getpid()] *)
Definition getpid : M Z := ask os_pid.

(** Allocation of a plugin object. *)
Definition new_object (p : CovPlugin) : M positive := fun w =>
  let l := fresh (dom (heap w)) in
  (Returned l, set_heap (<[l := p]> (heap w)) w).

(** [self.attr] *)
Definition getattr {A} (self : positive) (attr : CovPlugin -> A) : M A :=
  fun w =>
    match heap w !! self with
    | Some p => (Returned (attr p), w)
    | None => (Raised AttributeError, w)
    end.

(** [self.attr = v], with [set] the update of that attribute. *)
Definition setattr (self : positive) (set : CovPlugin -> CovPlugin) : M unit :=
  fun w =>
    match heap w !! self with
    | Some p => (Returned (), set_heap (<[self := set p]> (heap w)) w)
    | None => (Raised AttributeError, w)
    end.

(** A fresh engine, as [coverage.coverage(...)] makes one. *)
Definition new_engine : M engine := fun w =>
  (Returned (Engine (next_engine w)), set_next_engine (N.succ (next_engine w)) w).

(** ** Collaborators *)

(** [cov_core], [cov_core_init] and the host's plugin manager are not in the
    source; the hooks only call them.  Each call leaves its event in the
    trace, and what a call answers is taken from the world. *)

(** Modelled from the spec: the constructor of a [cov_core] controller, which
    is not in the source.  A controller keeps the source paths, the report
    kinds, the path of the configuration file, a reference to its engine and
    an optional node identifier (section 3); the engine is there once
    [start()] has run. *)
Definition controller_new (cls : cov_core.controller_cls)
    (cov_source cov_report : list string) (cov_config : string)
    (config : cov_core.config_arg) (nodeid : pyval) : M cov_core.Controller :=
  let c := cov_core.new cls cov_source cov_report cov_config config nodeid in
  emit (EvNew c);; mret c.

(** Modelled from the spec: [start()] of a [cov_core] controller, not in the
    source, constructs the engine instance of the controller and begins
    measurement (section 4.2). *)
Definition controller_start (c : cov_core.Controller) : M cov_core.Controller :=
  emit (EvStart c);;
  e ← new_engine;
  mret (cov_core.started e c).

(** Modelled from the spec: the notifications [configure_node],
    [testnodedown] and [finish] of a [cov_core] controller, not in the source
    (sections 4.4 and 4.5); the plugin passes them on and looks at no
    answer. *)
Definition controller_configure_node (c : cov_core.Controller) (node : pyval)
  : M unit :=
  emit (EvConfigureNode c node).

Definition controller_testnodedown (c : cov_core.Controller) (node error : pyval)
  : M unit :=
  emit (EvTestNodeDown c node error).

Definition controller_finish (c : cov_core.Controller) : M unit :=
  emit (EvFinish c).

(** Modelled from the spec: [summary(stream)] of a [cov_core] controller, not
    in the source, produces the report and returns the final percentage
    (section 4.2); the world says which number that is. *)
Definition controller_summary (c : cov_core.Controller) : M Q :=
  emit (EvSummary c);;
  ask (fun w => summary_total w c).

(** Modelled from the spec: [cov_core_init.init()], not in the source, starts
    a measurement afresh in a process the scheduler did not launch (section
    4.6) and returns its engine.  The world says whether it finds what it
    needs; when it does not, nothing is started and it returns [None]. *)
Definition init : M (option engine) :=
  found ← ask init_env;
  if (found : bool) then
    e ← new_engine; emit (EvInit (Some e));; mret (Some e)
  else
    emit (EvInit None);; mret None.

(** Modelled from the spec: [cov_core.multiprocessing_finish(cov)], not in
    the source, stops the engine and merges its data (section 4.6). *)
Definition multiprocessing_finish (e : engine) : M unit :=
  emit (EvMultiprocessingFinish e).

(** The plugin manager of the config: a registry from names to plugin
    objects. *)
Definition hasplugin (name : string) : M bool :=
  ask (fun w => bool_decide (is_Some (plugins w !! name))).

Definition getplugin (name : string) : M positive :=
  fun w =>
    match plugins w !! name with
    | Some l => (Returned l, w)
    | None => (Raised AttributeError, w)
    end.

(** [pluginmanager.register(plugin, name)] binds a free name to the object
    and refuses a name that is taken with [ValueError].  The hooks register
    only an object they have just constructed, so the name is all the
    manager can object to.  The event records a registration that took
    place. *)
Definition register (plugin : positive) (name : string) : M unit :=
  taken ← hasplugin name;
  if (taken : bool) then raise ValueError
  else
    emit (EvRegister name plugin);;
    modify (fun w => set_plugins (<[name := plugin]> (plugins w)) w).

(** ** class CovPlugin *)

(** [is_dist] of [__init__]: the value of the [or] chain. *)
Definition is_dist (options : Options) : pyval :=
  py_or (py_or (getattr_default (numprocesses options) (PyBool false))
               (getattr_default (distload options) (PyBool false)))
        (PyBool (py_ne (getattr_default (dist options) (PyStr "no"))
                       (PyStr "no"))).

(** [CovPlugin.start(self, controller_cls, config=None, nodeid=None)] *)
Definition start (self : positive) (controller_cls : cov_core.controller_cls)
    (config : option Config) (nodeid : pyval) : M unit :=
  opts ← getattr self options;
  let config :=
    match config with
    | None => cov_core.FakeConfig opts
    | Some c => cov_core.SessionConfig c
    end in
  c ← controller_new controller_cls
        (cov_source opts)
        (list_or (cov_report opts) ["term"%string])
        (cov_config opts)
        config
        nodeid;
  setattr self (set_cov_controller (Some c));;
  c' ← controller_start c;
  setattr self (set_cov_controller (Some c')).

(** [CovPlugin.__init__(self, options, pluginmanager, start=True)]; the
    plugin manager argument is not used by the body.  Returns the reference
    to the new object. *)
Definition __init__ (options : Options) (start_ : bool) : M positive :=
  self ← new_object {| pid := None; cov := None; cov_controller := None;
                       failed := false; options := options |};
  (if truthy (is_dist options) && start_ then
     start self cov_core.DistMaster None PyNone
   else if start_ then
     start self cov_core.Central None PyNone
   else mret ());;
  mret self.

Definition pytest_sessionstart (self : positive) (session : Session) : M unit :=
  p ← getpid;
  setattr self (set_pid (Some p));;
  match slaveinput (config session) with
  | Some si =>
      let nodeid := default (nodeid session) (si !! "slaveid"%string) in
      start self cov_core.DistSlave (Some (config session)) nodeid
  | None => mret ()
  end.

Definition pytest_configure_node (self : positive) (node : pyval) : M unit :=
  ctl ← getattr self cov_controller;
  match ctl with
  | Some c => controller_configure_node c node
  | None => raise AttributeError
  end.

Definition pytest_testnodedown (self : positive) (node error : pyval) : M unit :=
  ctl ← getattr self cov_controller;
  match ctl with
  | Some c => controller_testnodedown c node error
  | None => raise AttributeError
  end.

Definition pytest_sessionfinish (self : positive) (session : Session)
    (exitstatus : Z) : M unit :=
  setattr self (set_failed (negb (exitstatus =? 0)));;
  ctl ← getattr self cov_controller;
  match ctl with
  | Some c => controller_finish c
  | None => mret ()
  end.

(** [total < t] for a number [total] and an [int] [t], by exact value. *)
Definition lt_int (total : Q) (t : Z) : bool :=
  negb (Qle_bool (inject_Z t) total).

(** [total < None]: Python 2 orders [None] below every number, Python 3
    refuses the comparison. *)
Definition lt_None (total : Q) : M bool :=
  py3 ← ask python3;
  if (py3 : bool) then raise TypeError else mret false.

(** The threshold check that ends [pytest_terminal_summary]: the comparison
    [total < self.options.cov_min] and the [raise] under it. *)
Definition check_minimum (total : Q) (cov_min : option Z) : M unit :=
  match cov_min with
  | Some t =>
      if lt_int total t then
        raise (CoverageError (coverage_message t total))
      else mret ()
  | None =>
      below ← lt_None total;
      (* ['%d' % None] is a TypeError; [lt_None] never answers [True] *)
      if (below : bool) then raise TypeError else mret ()
  end.

(** [pytest_terminal_summary(self, terminalreporter)]; the reporter only
    lends its writer to [summary()]. *)
Definition pytest_terminal_summary (self : positive) : M unit :=
  ctl ← getattr self cov_controller;
  match ctl with
  | None => mret ()
  | Some c =>
      failed_ ← getattr self failed;
      opts ← getattr self options;
      if negb (failed_ && no_cov_on_fail opts) then
        total ← controller_summary c;
        check_minimum total (cov_min opts)
      else mret ()
  end.

(** [pytest_runtest_setup(self, item)] and [pytest_runtest_teardown(self,
    item)]; neither looks at the item. *)
Definition pytest_runtest_setup (self : positive) : M unit :=
  p ← getpid;
  captured ← getattr self pid;
  if bool_decide (Some p ≠ captured) then
    e ← init;
    setattr self (set_cov e)
  else mret ().

Definition pytest_runtest_teardown (self : positive) : M unit :=
  c ← getattr self cov;
  match c with
  | Some e =>
      multiprocessing_finish e;;
      setattr self (set_cov None)
  | None => mret ()
  end.

(** ** The cov funcarg *)

(** [pytest_funcarg__cov(request)].  A controller object is true like any
    object that defines neither [__bool__] nor [__len__], so the test on
    [plugin.cov_controller] is the test against [None]. *)
Definition pytest_funcarg__cov : M (option engine) :=
  has ← hasplugin "_cov";
  if (has : bool) then
    plugin ← getplugin "_cov";
    ctl ← getattr plugin cov_controller;
    match ctl with
    | Some c => mret (cov_core.cov c)
    | None => mret None
    end
  else mret None.

(** ** Command-line options *)

(** What [group.addoption] is given: the option string, [action], [default],
    [dest], [choices] and whether [type='int'] was asked for. *)
Inductive action := store | append | store_true.

Record OptionDecl := {
  opt_name : string;
  opt_action : action;
  opt_default : pyval;
  opt_dest : string;
  opt_choices : option (list string);
  opt_int : bool
}.

(** Modelled from the spec: the host's option parser, which is not in the
    source.  It knows the options declared so far, by this plugin and by
    others, and the conversion it applies for [type='int']; a value outside
    the declared choices is rejected at option-parsing time (sections 6
    and 7). *)
Record Parser := {
  declared : list OptionDecl;
  to_int : string -> option Z
}.

Definition addoption (d : OptionDecl) (parser : Parser) : Parser :=
  {| declared := declared parser ++ [d]; to_int := to_int parser |}.

(** The five options of the coverage group, in the order
    [pytest_addoption] adds them.  [--cov-min] names no [dest], the parser
    derives it from the option string and leaves the default at [None]. *)
Definition coverage_options : list OptionDecl :=
  [ {| opt_name := "--cov"; opt_action := append;
       opt_default := PyList []; opt_dest := "cov_source";
       opt_choices := None; opt_int := false |};
    {| opt_name := "--cov-report"; opt_action := append;
       opt_default := PyList []; opt_dest := "cov_report";
       opt_choices := Some ["term"; "term-missing"; "annotate";
                            "html"; "xml"; ""]%string;
       opt_int := false |};
    {| opt_name := "--cov-config"; opt_action := store;
       opt_default := PyStr ".coveragerc"; opt_dest := "cov_config";
       opt_choices := None; opt_int := false |};
    {| opt_name := "--no-cov-on-fail"; opt_action := store_true;
       opt_default := PyBool false; opt_dest := "no_cov_on_fail";
       opt_choices := None; opt_int := false |};
    {| opt_name := "--cov-min"; opt_action := store;
       opt_default := PyNone; opt_dest := "cov_min";
       opt_choices := None; opt_int := true |} ].

(** [pytest_addoption(parser)] *)
Definition pytest_addoption (parser : Parser) : Parser :=
  foldl (fun parser d => addoption d parser) parser coverage_options.

(** The namespace before any argument is read: every declared [dest] at its
    default. *)
Definition defaults (ds : list OptionDecl) : gmap string pyval :=
  foldl (fun ns d => <[opt_dest d := opt_default d]> ns) ∅ ds.

Definition lookup_option (name : string) (ds : list OptionDecl)
  : option OptionDecl :=
  find (fun d => String.eqb (opt_name d) name) ds.

(** A value is refused when [choices] is given and does not list it. *)
Definition choice_ok (d : OptionDecl) (raw : string) : bool :=
  match opt_choices d with
  | Some cs => bool_decide (raw ∈ cs)
  | None => true
  end.

Definition convert (parser : Parser) (d : OptionDecl) (raw : string)
  : option pyval :=
  if opt_int d then PyInt <$> to_int parser raw else Some (PyStr raw).

(** Modelled from the spec: what the host's parser does with one occurrence
    [name value] of an option on the command line.  A value outside the
    declared choices or one that does not convert is a usage error; options
    the parser does not know are left aside, as [parse_known_args] does. *)
Definition parse_arg (parser : Parser) (ns : gmap string pyval)
    (arg : string * string) : outcome (gmap string pyval) :=
  match lookup_option arg.1 (declared parser) with
  | None => Returned ns
  | Some d =>
      match opt_action d with
      | store_true => Returned (<[opt_dest d := PyBool true]> ns)
      | store =>
          match convert parser d arg.2 with
          | Some v =>
              if choice_ok d arg.2 then Returned (<[opt_dest d := v]> ns)
              else Raised UsageError
          | None => Raised UsageError
          end
      | append =>
          if choice_ok d arg.2 then
            let old := match ns !! opt_dest d with
                       | Some (PyList l) => l
                       | _ => []
                       end in
            Returned (<[opt_dest d := PyList (old ++ [arg.2])]> ns)
          else Raised UsageError
      end
  end.

Fixpoint parse_args (parser : Parser) (ns : gmap string pyval)
    (args : list (string * string)) : outcome (gmap string pyval) :=
  match args with
  | [] => Returned ns
  | arg :: rest =>
      match parse_arg parser ns arg with
      | Returned ns' => parse_args parser ns' rest
      | Raised e => Raised e
      end
  end.

(** The attributes the plugin reads off a namespace. *)
Definition options_of (ns : gmap string pyval) : Options :=
  {| cov_source := match ns !! "cov_source"%string with
                   | Some (PyList l) => l
                   | _ => []
                   end;
     cov_report := match ns !! "cov_report"%string with
                   | Some (PyList l) => l
                   | _ => []
                   end;
     cov_config := match ns !! "cov_config"%string with
                   | Some (PyStr s) => s
                   | _ => ""
                   end;
     no_cov_on_fail := match ns !! "no_cov_on_fail"%string with
                       | Some v => truthy v
                       | None => false
                       end;
     cov_min := match ns !! "cov_min"%string with
                | Some (PyInt z) => Some z
                | _ => None
                end;
     numprocesses := ns !! "numprocesses"%string;
     distload := ns !! "distload"%string;
     dist := ns !! "dist"%string |}.

(** [parser.parse_known_args(args)] *)
Definition parse_known_args (parser : Parser) (args : list (string * string))
  : M Options :=
  match parse_args parser (defaults (declared parser)) args with
  | Returned ns => mret (options_of ns)
  | Raised e => raise e
  end.

(** ** pytest_load_initial_conftests and pytest_configure *)

(** [pytest_load_initial_conftests(early_config, parser, args)]; the plugin
    manager of [early_config] is the world's. *)
Definition pytest_load_initial_conftests (parser : Parser)
    (args : list (string * string)) : M unit :=
  ns ← parse_known_args parser args;
  if truthy (PyList (cov_source ns)) then
    plugin ← __init__ ns true;
    register plugin "_cov"
  else mret ().

(** [pytest_configure(config)]; [config.getvalue('cov_source')] reads the
    attribute of [config.option]. *)
Definition pytest_configure (config : Config) : M unit :=
  if truthy (PyList (cov_source (cfg_option config))) then
    has ← hasplugin "_cov";
    if negb has then
      plugin ← __init__ (cfg_option config) false;
      register plugin "_cov"
    else mret ()
  else mret ().

(** ** A session, as the host schedules it *)

(** The calls the host makes on the registered plugin during one process'
    life, and the one thing that changes under the plugin's feet: after a
    fork the execution continues in a child, where [os.getpid()] answers
    differently. *)
Inductive Call :=
| SessionStart (session : Session)
| ConfigureNode (node : pyval)
| TestNodeDown (node error : pyval)
| RuntestSetup
| RuntestTeardown
| SessionFinish (session : Session) (exitstatus : Z)
| TerminalSummary
| Fork (child : Z).

Definition call (self : positive) (c : Call) : M unit :=
  match c with
  | SessionStart session => pytest_sessionstart self session
  | ConfigureNode node => pytest_configure_node self node
  | TestNodeDown node error => pytest_testnodedown self node error
  | RuntestSetup => pytest_runtest_setup self
  | RuntestTeardown => pytest_runtest_teardown self
  | SessionFinish session exitstatus =>
      pytest_sessionfinish self session exitstatus
  | TerminalSummary => pytest_terminal_summary self
  | Fork child => modify (set_os_pid child)
  end.

(** The calls are made in order; an exception ends the run. *)
Fixpoint run (self : positive) (cs : list Call) : M unit :=
  match cs with
  | [] => mret ()
  | c :: rest => call self c;; run self rest
  end.

(** The [summary()] calls in a trace. *)
Definition is_summary (ev : Event) : bool :=
  match ev with
  | EvSummary _ => true
  | _ => false
  end.

Definition summaries (t : list Event) : nat :=
  length (List.filter is_summary t).

Definition is_register (name : string) (ev : Event) : bool :=
  match ev with
  | EvRegister n _ => String.eqb n name
  | _ => false
  end.

Definition registrations (name : string) (t : list Event) : nat :=
  length (List.filter (is_register name) t).

Definition is_terminal_summary (c : Call) : bool :=
  match c with
  | TerminalSummary => true
  | _ => false
  end.

(** The terminal-summary calls in a schedule. *)
Definition terminal_summaries (cs : list Call) : nat :=
  length (List.filter is_terminal_summary cs).

(** The configuration phase: the early hook, on hosts that have it, then
    [pytest_configure]. *)
Definition configure_phase (early : bool) (parser : Parser)
    (args : list (string * string)) (config : Config) : M unit :=
  (if early then pytest_load_initial_conftests parser args else mret ());;
  pytest_configure config.

(** The worlds a process can be in: it begins with no plugin object and an
    empty registry, and moves by the module-level hooks and by the calls on
    the plugin registered as ['_cov']. *)
Inductive reachable : World -> Prop :=
| reachable_initial w :
    heap w = ∅ -> plugins w = ∅ -> reachable w
| reachable_load_initial_conftests w parser args :
    reachable w ->
    reachable (pytest_load_initial_conftests parser args w).2
| reachable_configure w config :
    reachable w ->
    reachable (pytest_configure config w).2
| reachable_call w self c :
    reachable w -> plugins w !! "_cov"%string = Some self ->
    reachable (call self c w).2.

(** In a well-formed world every registered name refers to a plugin object
    and every controller held by a plugin object has been started. *)
Definition well_formed (w : World) : Prop :=
  (forall name l, plugins w !! name = Some l -> is_Some (heap w !! l)) /\
  (forall l p c, heap w !! l = Some p -> cov_controller p = Some c ->
     is_Some (cov_core.cov c)).

(** The controller object that [CovPlugin.start] constructs from the
    plugin's options and its own arguments. *)
Definition start_controller (cls : cov_core.controller_cls) (o : Options)
    (config : option Config) (nodeid : pyval) : cov_core.Controller :=
  cov_core.new cls (cov_source o) (list_or (cov_report o) ["term"%string])
    (cov_config o)
    match config with
    | None => cov_core.FakeConfig o
    | Some cfg => cov_core.SessionConfig cfg
    end
    nodeid.

(** ** Sample data *)

Definition sample_options (report : list string) (no_cov_on_fail : bool)
    (cov_min : option Z) (numprocesses : option pyval) : Options :=
  {| cov_source := ["pkg"%string]; cov_report := report;
     cov_config := ".coveragerc"; no_cov_on_fail := no_cov_on_fail;
     cov_min := cov_min; numprocesses := numprocesses;
     distload := None; dist := None |}.

Definition sample_controller (o : Options) : cov_core.Controller :=
  cov_core.started (Engine 0) (start_controller cov_core.Central o None PyNone).

Definition sample_plugin (ctl : option cov_core.Controller) (failed : bool)
    (o : Options) : CovPlugin :=
  {| pid := Some 4242; cov := None; cov_controller := ctl;
     failed := failed; options := o |}.

(** A process with one plugin object, registered as ['_cov'], in which the
    coverage library reports [total]. *)
Definition sample_world (total : Q) (p : CovPlugin) : World :=
  {| os_pid := 4242; python3 := false; init_env := true;
     summary_total := fun _ => total; next_engine := 1;
     heap := {[ 1%positive := p ]}; plugins := {[ "_cov"%string := 1%positive ]};
     trace := [] |}.

(** A process in which nothing has happened yet. *)
Definition fresh_world : World :=
  {| os_pid := 4242; python3 := false; init_env := true;
     summary_total := fun _ => 80%Q; next_engine := 0;
     heap := ∅; plugins := ∅; trace := [] |}.

Definition sample_session (si : option (gmap string pyval)) : Session :=
  {| config := {| cfg_option := sample_options [] false None None;
                  slaveinput := si |};
     nodeid := PyStr "" |}.

(** A parser on which nothing is declared yet; it reads integers in
    decimal. *)
Definition sample_parser : Parser :=
  {| declared := [];
     to_int := fun s => Z.of_int <$> NilZero.int_of_string s |}.

(** Options with a source path and nothing else; the same with a threshold
    of 50, with four worker processes, and with suppression on failure. *)
Definition plain_options : Options := sample_options [] false None None.
Definition min50_options : Options := sample_options [] false (Some 50) None.
Definition dist_options : Options :=
  sample_options [] false None (Some (PyInt 4)).
Definition strict_options : Options := sample_options [] true (Some 50) None.

(** A plugin that was constructed without a controller, and one that holds a
    started [Central] controller. *)
Definition idle_plugin : CovPlugin := sample_plugin None false plain_options.

Definition central_plugin (o : Options) : CovPlugin :=
  sample_plugin (Some (sample_controller o)) false o.

Definition sample_config : Config :=
  {| cfg_option := plain_options; slaveinput := None |}.

(** The process after the early hook has seen [--cov pkg] on the command
    line. *)
Definition early_world : World :=
  (pytest_load_initial_conftests (pytest_addoption sample_parser)
     [("--cov", "pkg")]%string fresh_world).2.

(** The process [sample_world total p] after a fork. *)
Definition forked_world (total : Q) (p : CovPlugin) : World :=
  set_os_pid 4243 (sample_world total p).

(** ** Schedules *)

(** The setup and teardown of [n] test items, one after the other. *)
Fixpoint items (n : nat) : list Call :=
  match n with
  | O => []
  | S n' => RuntestSetup :: RuntestTeardown :: items n'
  end.

Definition is_item_call (c : Call) : bool :=
  match c with
  | RuntestSetup | RuntestTeardown => true
  | _ => false
  end.

Definition is_session_finish (c : Call) : bool :=
  match c with
  | SessionFinish _ _ => true
  | _ => false
  end.

(** The controller a call into [cov_core] is made on, for the calls that are
    made on one that exists already. *)
Definition event_controller (ev : Event) : option cov_core.Controller :=
  match ev with
  | EvConfigureNode c _ | EvTestNodeDown c _ _ | EvFinish c | EvSummary c =>
      Some c
  | _ => None
  end.

(** What [n] items run in a forked child leave in the trace, when [k]
    engines existed before the first: with [found] each item starts an
    engine and finishes it, without it each item only asks. *)
Fixpoint item_events (found : bool) (k : N) (n : nat) : list Event :=
  match n with
  | O => []
  | S n' =>
      if found then
        EvInit (Some (Engine k)) :: EvMultiprocessingFinish (Engine k)
          :: item_events found (N.succ k) n'
      else EvInit None :: item_events found k n'
  end.

(** Every engine a plugin object keeps in [self.cov] was returned by an
    earlier [cov_core_init.init()]. *)
Definition engines_tracked (w : World) : Prop :=
  forall l p e, heap w !! l = Some p -> cov p = Some e ->
    EvInit (Some e) ∈ trace w.




(** The command line that names the source paths [vs] and nothing else. *)
Definition cov_args (vs : list string) : list (string * string) :=
  map (fun v => ("--cov"%string, v)) vs.

(** * Properties *)

(** ** Running a hook *)

(** Unfolds the monad and the primitives, leaving the lookups in the store
    and the tests on the plugin's attributes. *)
Ltac munfold :=
  cbv beta iota zeta delta
    [mbind M_bind mret M_ret raise emit ask modify getpid new_object getattr
     setattr new_engine controller_new controller_start
     controller_configure_node controller_testnodedown controller_finish
     controller_summary init multiprocessing_finish hasplugin getplugin
     register];
  cbn [os_pid python3 init_env summary_total next_engine heap plugins trace
       set_os_pid set_next_engine set_heap set_plugins set_trace fst snd].

(** Runs a hook on a store in which [H] tells what [self] refers to. *)
Ltac mrun H :=
  repeat (munfold; rewrite ?H, ?lookup_insert_eq).

Lemma bind_returned {A B} (m : M A) (f : A -> M B) w a w' :
  m w = (Returned a, w') -> (m ≫= f) w = f a w'.
Proof. intros H. unfold mbind, M_bind. by rewrite H. Qed.

Lemma setattr_eq_ret self set w p :
  heap w !! self = Some p ->
  setattr self set w = (Returned (), set_heap (<[self := set p]> (heap w)) w).
Proof. intros H. unfold setattr. by rewrite H. Qed.

(** Projects the fields of a world that a hook has put together. *)
Ltac world_fields :=
  cbn [fst snd os_pid python3 init_env summary_total next_engine heap plugins
       trace set_os_pid set_next_engine set_heap set_plugins set_trace].

Lemma lt_int_spec (total : Q) (t : Z) :
  lt_int total t = true <-> (total < inject_Z t)%Q.
Proof.
  unfold lt_int. rewrite negb_true_iff.
  destruct (Qle_bool (inject_Z t) total) eqn:E.
  - apply Qle_bool_iff in E. split; [discriminate |].
    intros H. destruct (Qlt_not_le _ _ H E).
  - split; [| reflexivity]. intros _. apply Qnot_le_lt.
    intros H. apply Qle_bool_iff in H. congruence.
Qed.

(** ** CovPlugin.start *)

(** [start] constructs one controller, starts it and leaves it, with its
    engine, in [self.cov_controller]. *)
Lemma start_spec self cls config nodeid w p :
  heap w !! self = Some p ->
  let c := start_controller cls (options p) config nodeid in
  start self cls config nodeid w =
    (Returned (),
     set_heap
       (<[self := set_cov_controller
                    (Some (cov_core.started (Engine (next_engine w)) c)) p]>
          (heap w))
       (set_next_engine (N.succ (next_engine w))
          (set_trace (trace w ++ [EvNew c; EvStart c]) w))).
Proof.
  intros Hs c. unfold start. mrun Hs.
  rewrite insert_insert_eq, <- app_assoc. reflexivity.
Qed.

(** C9. [start] hands the controller the report kinds of the options, and
    the single kind ['term'] when the options list none: the constructor
    call in the trace and the controller left in the plugin both say so. *)
Theorem start_report_kinds self cls config nodeid w p :
  heap w !! self = Some p ->
  exists c e,
    trace (start self cls config nodeid w).2 = trace w ++ [EvNew c; EvStart c] /\
    (heap (start self cls config nodeid w).2 !! self ≫= cov_controller)
      = Some (cov_core.started e c) /\
    cov_core.cov_report (cov_core.started e c) = cov_core.cov_report c /\
    (cov_report (options p) = [] -> cov_core.cov_report c = ["term"%string]) /\
    (cov_report (options p) <> [] ->
     cov_core.cov_report c = cov_report (options p)).
Proof.
  intros Hs. rewrite (start_spec _ cls config nodeid _ _ Hs).
  eexists _, _. cbn [snd trace heap set_heap set_next_engine set_trace].
  rewrite lookup_insert_eq. repeat split.
  - cbn. intros ->. reflexivity.
  - cbn. destruct (cov_report (options p)); [congruence | reflexivity].
Qed.

Lemma start_report_kinds_witness :
  exists c e,
    trace (start 1 cov_core.Central None PyNone
             (sample_world 80 (sample_plugin None false
                (sample_options ["html"%string] false None None)))).2
      = [EvNew c; EvStart c] /\
    cov_core.cov_report (cov_core.started e c) = ["html"%string].
Proof.
  destruct (start_report_kinds 1 cov_core.Central None PyNone
              (sample_world 80 (sample_plugin None false
                 (sample_options ["html"%string] false None None)))
              (sample_plugin None false
                 (sample_options ["html"%string] false None None))
              eq_refl)
    as (c & e & Ht & _ & He & _ & Hr).
  exists c, e. split; [exact Ht |].
  rewrite He. apply Hr. discriminate.
Defined.

(** ** CovPlugin.__init__ *)

Lemma is_dist_truthy (o : Options) :
  truthy (is_dist o) =
    truthy (getattr_default (numprocesses o) (PyBool false))
    || truthy (getattr_default (distload o) (PyBool false))
    || py_ne (getattr_default (dist o) (PyStr "no")) (PyStr "no").
Proof.
  unfold is_dist, py_or.
  destruct (truthy (getattr_default (numprocesses o) (PyBool false))) eqn:E1;
    rewrite ?E1; [reflexivity |].
  destruct (truthy (getattr_default (distload o) (PyBool false))) eqn:E2;
    rewrite ?E2; reflexivity.
Qed.

(** The object [__init__] leaves behind, given the controller it holds. *)
Lemma init_spec options start_ w :
  let self := fresh (dom (heap w)) in
  let blank := {| pid := None; cov := None; cov_controller := None;
                  failed := false; options := options |} in
  let cls := if truthy (is_dist options) then cov_core.DistMaster
             else cov_core.Central in
  let c := start_controller cls options None PyNone in
  __init__ options start_ w =
    if start_ then
      (Returned self,
       set_heap
         (<[self := set_cov_controller
                      (Some (cov_core.started (Engine (next_engine w)) c))
                      blank]> (heap w))
         (set_next_engine (N.succ (next_engine w))
            (set_trace (trace w ++ [EvNew c; EvStart c]) w)))
    else
      (Returned self, set_heap (<[self := blank]> (heap w)) w).
Proof.
  intros self blank cls c. unfold __init__.
  rewrite (bind_returned (new_object blank) _ w self
             (set_heap (<[self := blank]> (heap w)) w) eq_refl).
  assert (Hs : heap (set_heap (<[self := blank]> (heap w)) w) !! self
               = Some blank) by apply lookup_insert_eq.
  destruct start_.
  - rewrite andb_true_r. subst cls c.
    destruct (truthy (is_dist options));
      (erewrite bind_returned by (apply start_spec, Hs));
      cbn; rewrite insert_insert_eq; reflexivity.
  - rewrite andb_false_r. reflexivity.
Qed.

(** C3, as the code has it.  Constructed with [start] true, the plugin
    instantiates and starts exactly one controller, a [DistMaster] when
    [numprocesses] or [distload] is true or [dist] is not ['no'] and a
    [Central] otherwise; constructed with [start] false, as
    [pytest_configure] does, it instantiates none. *)
Theorem init_selects_topology (options : Options) (w : World) :
  let dist_run :=
    truthy (getattr_default (numprocesses options) (PyBool false))
    || truthy (getattr_default (distload options) (PyBool false))
    || py_ne (getattr_default (dist options) (PyStr "no")) (PyStr "no") in
  let cls := if dist_run then cov_core.DistMaster else cov_core.Central in
  let c := start_controller cls options None PyNone in
  let started := __init__ options true w in
  let idle := __init__ options false w in
  (exists self e,
     started.1 = Returned self /\
     trace started.2 = trace w ++ [EvNew c; EvStart c] /\
     (heap started.2 !! self ≫= cov_controller)
       = Some (cov_core.started e c) /\
     cov_core.cls (cov_core.started e c) = cls) /\
  (exists self,
     idle.1 = Returned self /\
     trace idle.2 = trace w /\
     (cov_controller <$> heap idle.2 !! self) = Some None).
Proof.
  intros dist_run cls c started idle. subst started idle.
  rewrite !init_spec. subst c cls dist_run. rewrite <- is_dist_truthy.
  split.
  - eexists _, _. cbn [fst snd trace heap set_heap set_next_engine set_trace].
    rewrite lookup_insert_eq. repeat split.
  - eexists. cbn [fst snd trace heap set_heap]. rewrite lookup_insert_eq.
    repeat split.
Qed.

(** C3 as stated fails on the configure-time path: with [start] false no
    controller is instantiated, whether or not the options ask for a
    distributed run. *)
Lemma init_without_start_has_no_controller :
  truthy (is_dist dist_options) = true /\
  truthy (is_dist plain_options) = false /\
  (__init__ dist_options false fresh_world).1 = Returned 1%positive /\
  trace (__init__ dist_options false fresh_world).2 = [] /\
  (cov_controller <$> heap (__init__ dist_options false fresh_world).2 !! 1%positive)
    = Some None /\
  (__init__ plain_options false fresh_world).1 = Returned 1%positive /\
  trace (__init__ plain_options false fresh_world).2 = [] /\
  (cov_controller <$> heap (__init__ plain_options false fresh_world).2 !! 1%positive)
    = Some None.
Proof. vm_compute. repeat split. Qed.

(** ** pytest_sessionstart *)

Lemma sessionstart_spec self session w p :
  heap w !! self = Some p ->
  pytest_sessionstart self session w =
    match slaveinput (config session) with
    | Some si =>
        let c := start_controller cov_core.DistSlave (options p)
                   (Some (config session))
                   (default (nodeid session) (si !! "slaveid"%string)) in
        (Returned (),
         set_heap
           (<[self := set_cov_controller
                        (Some (cov_core.started (Engine (next_engine w)) c))
                        (set_pid (Some (os_pid w)) p)]> (heap w))
           (set_next_engine (N.succ (next_engine w))
              (set_trace (trace w ++ [EvNew c; EvStart c]) w)))
    | None =>
        (Returned (),
         set_heap (<[self := set_pid (Some (os_pid w)) p]> (heap w)) w)
    end.
Proof.
  intros Hs. unfold pytest_sessionstart.
  rewrite (bind_returned getpid _ w (os_pid w) w eq_refl).
  erewrite bind_returned by (apply setattr_eq_ret, Hs).
  destruct (slaveinput (config session)) as [si |]; [| reflexivity].
  erewrite start_spec by apply lookup_insert_eq.
  cbn. rewrite insert_insert_eq. reflexivity.
Qed.

(** C4, as the code has it.  On a worker (the config has [slaveinput]) the
    session start instantiates and starts one [DistSlave] controller on the
    session's config and puts it in place of whatever the construction chose;
    its node identifier is the ['slaveid'] entry of [slaveinput] when there
    is one and the session's own [nodeid] when there is none.  Without
    [slaveinput] no controller is created and the one in place stays. *)
Theorem sessionstart_worker self session w p :
  heap w !! self = Some p ->
  let w' := (pytest_sessionstart self session w).2 in
  (forall si, slaveinput (config session) = Some si ->
     exists c e,
       trace w' = trace w ++ [EvNew c; EvStart c] /\
       (heap w' !! self ≫= cov_controller) = Some (cov_core.started e c) /\
       cov_core.cls c = cov_core.DistSlave /\
       cov_core.config c = cov_core.SessionConfig (config session) /\
       (forall v, si !! "slaveid"%string = Some v -> cov_core.nodeid c = v) /\
       (si !! "slaveid"%string = None -> cov_core.nodeid c = nodeid session)) /\
  (slaveinput (config session) = None ->
     trace w' = trace w /\
     (heap w' !! self ≫= cov_controller) = cov_controller p).
Proof.
  intros Hs w'. subst w'. rewrite (sessionstart_spec _ _ _ _ Hs). split.
  - intros si ->. eexists _, _.
    cbn [snd trace heap set_heap set_next_engine set_trace].
    rewrite lookup_insert_eq. repeat split.
    + intros v Hv. cbn. by rewrite Hv.
    + intros Hv. cbn. by rewrite Hv.
  - intros ->. cbn [snd trace heap set_heap]. rewrite lookup_insert_eq.
    split; reflexivity.
Qed.

Lemma sessionstart_worker_witness :
  exists c e,
    trace (pytest_sessionstart 1
             (sample_session (Some {[ "slaveid"%string := PyStr "gw0" ]}))
             (sample_world 80 idle_plugin)).2
      = [EvNew c; EvStart c] /\
    cov_core.cls c = cov_core.DistSlave /\
    cov_core.nodeid c = PyStr "gw0" /\
    (heap (pytest_sessionstart 1
             (sample_session (Some {[ "slaveid"%string := PyStr "gw0" ]}))
             (sample_world 80 idle_plugin)).2
       !! 1%positive ≫= cov_controller) = Some (cov_core.started e c).
Proof.
  destruct (sessionstart_worker 1
              (sample_session (Some {[ "slaveid"%string := PyStr "gw0" ]}))
              (sample_world 80 idle_plugin) idle_plugin eq_refl)
    as [Hworker _].
  destruct (Hworker _ eq_refl) as (c & e & Ht & Hh & Hc & _ & Hid & _).
  exists c, e. repeat split; [exact Ht | exact Hc | | exact Hh].
  apply Hid. reflexivity.
Defined.

(** C4 as stated fails where [slaveinput] has no ['slaveid'] entry: the
    controller is created all the same, and the node identifier it is given
    is the session's [nodeid], which no entry of the marker holds. *)
Lemma sessionstart_without_slaveid :
  slaveinput (config (sample_session (Some ∅))) = Some ∅ /\
  (∅ : gmap string pyval) !! "slaveid"%string = None /\
  (cov_core.cls <$>
     (heap (pytest_sessionstart 1 (sample_session (Some ∅))
              (sample_world 80 idle_plugin)).2 !! 1%positive
      ≫= cov_controller))
    = Some cov_core.DistSlave /\
  (cov_core.nodeid <$>
     (heap (pytest_sessionstart 1 (sample_session (Some ∅))
              (sample_world 80 idle_plugin)).2 !! 1%positive
      ≫= cov_controller))
    = Some (nodeid (sample_session (Some ∅))).
Proof. vm_compute. repeat split. Qed.

(** ** The error message *)

Lemma plain_app s1 s2 : plain s1 -> plain s2 -> plain (s1 +:+ s2).
Proof.
  induction s1 as [| a s1 IH]; cbn; [auto |].
  intros [? ?] ?. split; auto.
Qed.

Lemma pretty_N_go_plain x : forall s, plain s -> plain (pretty_N_go x s).
Proof.
  induction (N.lt_wf_0 x) as [x _ IH]. intros s Hs.
  destruct (decide (x = 0)%N) as [-> | Hx]; [by rewrite pretty_N_go_0 |].
  rewrite pretty_N_go_step by lia. apply IH.
  - apply N.div_lt; lia.
  - split; [| exact Hs]. unfold pretty_N_char. by repeat case_match.
Qed.

Lemma pretty_N_plain (x : N) : plain (pretty x).
Proof.
  unfold pretty, pretty_N. case_decide; [by cbn |].
  by apply pretty_N_go_plain.
Qed.

Lemma pretty_Z_plain (z : Z) : plain (pretty z).
Proof.
  destruct z as [| x | x]; unfold pretty, pretty_Z; [by cbn | |].
  - apply pretty_N_plain.
  - apply plain_app; [by cbn | apply pretty_N_plain].
Qed.

(** Two plain strings that are followed by a percent sign in the same text
    are the same string, and so is what follows. *)
Lemma plain_prefix_inj s1 : forall s2 r1 r2,
  plain s1 -> plain s2 ->
  s1 +:+ String "%" r1 = s2 +:+ String "%" r2 -> s1 = s2 /\ r1 = r2.
Proof.
  induction s1 as [| a s1 IH]; intros [| b s2] r1 r2 H1 H2 E; cbn in *.
  - by injection E.
  - injection E as <- _. by destruct H2.
  - injection E as -> _. by destruct H1.
  - injection E as <- E. destruct H1 as [_ H1], H2 as [_ H2].
    destruct (IH _ _ _ H1 H2 E) as [-> ->]. done.
Qed.

Lemma append_percent_inj s1 : forall s2,
  s1 +:+ "%" = s2 +:+ "%" -> s1 = s2.
Proof.
  induction s1 as [| a s1 IH]; intros [| b s2] E; cbn in *.
  - done.
  - injection E as _ E. by destruct s2.
  - injection E as _ E. by destruct s1.
  - injection E as <- E. by rewrite (IH _ E).
Qed.

(** The message tells the threshold, and the total as far as its two
    decimals go. *)
Lemma coverage_message_inj t total t' total' :
  coverage_message t total = coverage_message t' total' ->
  t = t' /\ fmt_2f total = fmt_2f total'.
Proof.
  unfold coverage_message, fmt_d. cbn [String.append]. intros E.
  repeat (injection E as E || injection E as _ E).
  apply plain_prefix_inj in E as [Ht E]; [| apply pretty_Z_plain ..].
  split; [by apply (inj pretty) |].
  cbn [String.append] in E.
  repeat (injection E as E || injection E as _ E).
  by apply append_percent_inj.
Qed.

(** ** pytest_sessionfinish and pytest_terminal_summary *)

Lemma sessionfinish_spec self session exitstatus w p :
  heap w !! self = Some p ->
  let p' := set_failed (negb (exitstatus =? 0)) p in
  let finished :=
    match cov_controller p with
    | Some c => [EvFinish c]
    | None => []
    end in
  pytest_sessionfinish self session exitstatus w =
    (Returned (),
     set_trace (trace w ++ finished)
       (set_heap (<[self := p']> (heap w)) w)).
Proof.
  intros Hs p' finished. unfold pytest_sessionfinish. mrun Hs.
  subst finished. cbn [cov_controller set_failed].
  destruct (cov_controller p); munfold; [reflexivity |].
  rewrite app_nil_r. destruct w; reflexivity.
Qed.

(** What the summary hook does, case by case. *)
Lemma terminal_summary_spec self w p :
  heap w !! self = Some p ->
  pytest_terminal_summary self w =
    match cov_controller p with
    | None => (Returned (), w)
    | Some c =>
        if failed p && no_cov_on_fail (options p) then (Returned (), w)
        else check_minimum (summary_total w c) (cov_min (options p))
               (set_trace (trace w ++ [EvSummary c]) w)
    end.
Proof.
  intros Hs. unfold pytest_terminal_summary. mrun Hs.
  destruct (cov_controller p) as [c |]; [| reflexivity]. mrun Hs.
  destruct (failed p && no_cov_on_fail (options p)); reflexivity.
Qed.

Lemma check_minimum_trace total cov_min w :
  (check_minimum total cov_min w).2 = w.
Proof.
  unfold check_minimum, lt_None. destruct cov_min as [t |].
  - destruct (lt_int total t); reflexivity.
  - munfold. destruct (python3 w); reflexivity.
Qed.

(** C1, as the code has it.  When a controller exists, reporting is not
    suppressed and a threshold [t] is configured, the summary hook compares
    the total of [summary()] with [t] by exact value: below [t] it raises
    [CoverageError] with the message that prints [t] in decimal and the total
    rounded to two decimals, otherwise it returns.  The message determines
    [t], and of the total the two-decimal rendering. *)
Theorem terminal_summary_threshold self w p c t :
  heap w !! self = Some p ->
  cov_controller p = Some c ->
  failed p && no_cov_on_fail (options p) = false ->
  cov_min (options p) = Some t ->
  let total := summary_total w c in
  ((total < inject_Z t)%Q ->
     (pytest_terminal_summary self w).1
       = Raised (CoverageError (coverage_message t total))) /\
  ((inject_Z t <= total)%Q ->
     (pytest_terminal_summary self w).1 = Returned ()) /\
  (forall t' total',
     coverage_message t' total' = coverage_message t total ->
     t' = t /\ fmt_2f total' = fmt_2f total).
Proof.
  intros Hs Hc Hf Ht total.
  rewrite (terminal_summary_spec _ _ _ Hs), Hc, Hf, Ht.
  unfold check_minimum. cbn [summary_total set_trace]. fold total.
  split; [| split].
  - intros H. apply lt_int_spec in H. rewrite H. reflexivity.
  - intros H. destruct (lt_int total t) eqn:E; [| reflexivity].
    apply lt_int_spec in E. destruct (Qlt_not_le _ _ E H).
  - intros t' total'. apply coverage_message_inj.
Qed.

Lemma terminal_summary_threshold_witness :
  (pytest_terminal_summary 1
     (sample_world 42 (central_plugin min50_options))).1
  = Raised (CoverageError
      "Required test coverage of 50% not reached. Total coverage: 42.00%").
Proof.
  refine (proj1 (terminal_summary_threshold 1
                   (sample_world 42 (central_plugin min50_options))
                   (central_plugin min50_options)
                   (sample_controller min50_options) 50
                   eq_refl eq_refl eq_refl eq_refl) _).
  reflexivity.
Defined.

(** C1 as stated fails on "carrying exactly": the error holds a message in
    which the total is rounded.  Totals 49.99609375 and 49.998046875 against
    the threshold 50 raise the same error, and it reads 50.00. *)
Lemma threshold_error_rounds_total :
  ((12799 # 256) < inject_Z 50)%Q /\
  ((25599 # 512) < inject_Z 50)%Q /\
  ~ ((12799 # 256) == (25599 # 512))%Q /\
  (pytest_terminal_summary 1
     (sample_world (12799 # 256) (central_plugin min50_options))).1
    = Raised (CoverageError
        "Required test coverage of 50% not reached. Total coverage: 50.00%") /\
  (pytest_terminal_summary 1
     (sample_world (25599 # 512) (central_plugin min50_options))).1
    = (pytest_terminal_summary 1
         (sample_world (12799 # 256) (central_plugin min50_options))).1.
Proof.
  split; [reflexivity |]. split; [reflexivity |].
  split; [discriminate |]. split; vm_compute; reflexivity.
Qed.

(** ** The per-test hooks and the node hooks *)

Lemma runtest_setup_spec self w p :
  heap w !! self = Some p ->
  pytest_runtest_setup self w =
    if bool_decide (Some (os_pid w) ≠ pid p) then
      if init_env w then
        (Returned (),
         set_heap (<[self := set_cov (Some (Engine (next_engine w))) p]> (heap w))
           (set_trace (trace w ++ [EvInit (Some (Engine (next_engine w)))])
              (set_next_engine (N.succ (next_engine w)) w)))
      else
        (Returned (),
         set_heap (<[self := set_cov None p]> (heap w))
           (set_trace (trace w ++ [EvInit None]) w))
    else (Returned (), w).
Proof.
  intros Hs. unfold pytest_runtest_setup. mrun Hs.
  destruct (bool_decide (Some (os_pid w) ≠ pid p)); [| reflexivity].
  munfold. destruct (init_env w); mrun Hs; reflexivity.
Qed.

Lemma runtest_teardown_spec self w p :
  heap w !! self = Some p ->
  pytest_runtest_teardown self w =
    match cov p with
    | Some e =>
        (Returned (),
         set_heap (<[self := set_cov None p]> (heap w))
           (set_trace (trace w ++ [EvMultiprocessingFinish e]) w))
    | None => (Returned (), w)
    end.
Proof.
  intros Hs. unfold pytest_runtest_teardown. mrun Hs.
  destruct (cov p); mrun Hs; reflexivity.
Qed.

Lemma configure_node_spec self node w p :
  heap w !! self = Some p ->
  pytest_configure_node self node w =
    match cov_controller p with
    | Some c => (Returned (), set_trace (trace w ++ [EvConfigureNode c node]) w)
    | None => (Raised AttributeError, w)
    end.
Proof.
  intros Hs. unfold pytest_configure_node. mrun Hs.
  destruct (cov_controller p); reflexivity.
Qed.

Lemma testnodedown_spec self node error w p :
  heap w !! self = Some p ->
  pytest_testnodedown self node error w =
    match cov_controller p with
    | Some c =>
        (Returned (), set_trace (trace w ++ [EvTestNodeDown c node error]) w)
    | None => (Raised AttributeError, w)
    end.
Proof.
  intros Hs. unfold pytest_testnodedown. mrun Hs.
  destruct (cov_controller p); reflexivity.
Qed.





(** ** Counting the summaries *)

Ltac count_summaries :=
  unfold summaries; world_fields;
  rewrite ?List.filter_app, ?length_app;
  cbn [List.filter is_summary length]; lia.

(** After any call the plugin object is still there, and the call has asked
    for at most one summary, and for none unless it is the summary hook. *)
Lemma call_summaries self c w p :
  heap w !! self = Some p ->
  is_Some (heap (call self c w).2 !! self) /\
  (summaries (trace (call self c w).2)
   <= summaries (trace w) + (if is_terminal_summary c then 1 else 0))%nat.
Proof.
  intros Hs. destruct c as [s | node | node error | | | s x | | child];
    cbn [call is_terminal_summary].
  - rewrite (sessionstart_spec _ _ _ _ Hs).
    destruct (slaveinput (config s)); (split; [| count_summaries]);
      world_fields; rewrite lookup_insert_eq; eauto.
  - rewrite (configure_node_spec _ _ _ _ Hs).
    destruct (cov_controller p); (split; [| count_summaries]);
      world_fields; rewrite Hs; eauto.
  - rewrite (testnodedown_spec _ _ _ _ _ Hs).
    destruct (cov_controller p); (split; [| count_summaries]);
      world_fields; rewrite Hs; eauto.
  - rewrite (runtest_setup_spec _ _ _ Hs).
    destruct (bool_decide _); [destruct (init_env w) |];
      (split; [| count_summaries]);
      world_fields; rewrite ?lookup_insert_eq, ?Hs; eauto.
  - rewrite (runtest_teardown_spec _ _ _ Hs).
    destruct (cov p); (split; [| count_summaries]);
      world_fields; rewrite ?lookup_insert_eq, ?Hs; eauto.
  - rewrite (sessionfinish_spec _ _ _ _ _ Hs).
    destruct (cov_controller p); (split; [| count_summaries]);
      world_fields; rewrite lookup_insert_eq; eauto.
  - rewrite (terminal_summary_spec _ _ _ Hs).
    destruct (cov_controller p); [destruct (_ && _) |];
      rewrite ?check_minimum_trace; (split; [| count_summaries]);
      world_fields; rewrite Hs; eauto.
  - unfold modify. split; [| count_summaries]. world_fields. rewrite Hs. eauto.
Qed.

Lemma run_summaries self cs : forall w p,
  heap w !! self = Some p ->
  (summaries (trace (run self cs w).2)
   <= summaries (trace w) + terminal_summaries cs)%nat.
Proof.
  induction cs as [| c cs IH]; intros w p Hs.
  - cbn. lia.
  - destruct (call_summaries self c w p Hs) as [[p' Hs'] Hc].
    cbn [run]. unfold mbind, M_bind.
    destruct (call self c w) as [[[] | e] w'] eqn:E; cbn [snd] in *.
    + specialize (IH w' p' Hs'). unfold terminal_summaries in *.
      cbn [List.filter]. destruct (is_terminal_summary c); cbn [length]; lia.
    + unfold terminal_summaries. cbn [List.filter].
      destruct (is_terminal_summary c); cbn [length]; lia.
Qed.

(** C6.  The summary hook asks the controller for its summary exactly once
    when a controller exists and reporting is not suppressed, and not at all
    otherwise; over a whole schedule the summaries never outnumber the
    terminal-summary calls, so a session with one such call reports at most
    once. *)
Theorem at_most_one_summary self w p :
  heap w !! self = Some p ->
  (forall c, cov_controller p = Some c ->
     failed p && no_cov_on_fail (options p) = false ->
     trace (pytest_terminal_summary self w).2 = trace w ++ [EvSummary c] /\
     summaries (trace (pytest_terminal_summary self w).2)
       = S (summaries (trace w))) /\
  (cov_controller p = None \/ failed p && no_cov_on_fail (options p) = true ->
     pytest_terminal_summary self w = (Returned (), w)) /\
  (forall cs,
     summaries (trace (run self cs w).2)
     <= summaries (trace w) + terminal_summaries cs)%nat.
Proof.
  intros Hs. split; [| split].
  - intros c Hc Hf. rewrite (terminal_summary_spec _ _ _ Hs), Hc, Hf.
    rewrite check_minimum_trace. split; [reflexivity | count_summaries].
  - intros H. rewrite (terminal_summary_spec _ _ _ Hs).
    destruct (cov_controller p); [| reflexivity].
    destruct H as [H | ->]; [discriminate | reflexivity].
  - intros cs. exact (run_summaries self cs w p Hs).
Qed.

(** C2, as the code has it.  After a session that finished with a non-zero
    exit status, with [no_cov_on_fail] set, the summary hook returns without
    calling anything and without raising, whatever the threshold.  After any
    other session it calls [summary()] once, provided a controller exists;
    without a controller it returns without calling anything. *)
Theorem summary_gate self session exitstatus w p :
  heap w !! self = Some p ->
  let w1 := (pytest_sessionfinish self session exitstatus w).2 in
  (exitstatus <> 0 -> no_cov_on_fail (options p) = true ->
     pytest_terminal_summary self w1 = (Returned (), w1)) /\
  (exitstatus = 0 \/ no_cov_on_fail (options p) = false ->
     forall c, cov_controller p = Some c ->
       trace (pytest_terminal_summary self w1).2 = trace w1 ++ [EvSummary c]) /\
  (cov_controller p = None ->
     pytest_terminal_summary self w1 = (Returned (), w1)).
Proof.
  intros Hs w1.
  assert (Hs1 : heap w1 !! self = Some (set_failed (negb (exitstatus =? 0)) p)).
  { subst w1. rewrite (sessionfinish_spec _ _ _ _ _ Hs). world_fields.
    apply lookup_insert_eq. }
  rewrite (terminal_summary_spec _ _ _ Hs1). cbn [cov_controller failed options set_failed].
  split; [| split].
  - intros Hx Hn. rewrite Hn.
    destruct (exitstatus =? 0) eqn:E; [apply Z.eqb_eq in E; contradiction |].
    destruct (cov_controller p); reflexivity.
  - intros Hor c ->.
    assert (negb (exitstatus =? 0) && no_cov_on_fail (options p) = false) as ->.
    { destruct Hor as [-> | ->]; [reflexivity | apply andb_false_r]. }
    by rewrite check_minimum_trace.
  - intros ->. reflexivity.
Qed.

Lemma summary_gate_witness :
  pytest_terminal_summary 1
    (pytest_sessionfinish 1 (sample_session None) 1
       (sample_world 10 (central_plugin strict_options))).2
  = (Returned (),
     (pytest_sessionfinish 1 (sample_session None) 1
        (sample_world 10 (central_plugin strict_options))).2).
Proof.
  refine (proj1 (summary_gate 1 (sample_session None) 1
                   (sample_world 10 (central_plugin strict_options))
                   (central_plugin strict_options) eq_refl) _ eq_refl).
  discriminate.
Defined.

(** C2 as stated fails in its second half when no controller exists.  A
    plugin registered by [pytest_configure] alone, in a process that is not a
    worker, goes through a passing session without a single [summary()]. *)
Lemma summary_not_invoked_without_controller :
  plugins (pytest_configure sample_config fresh_world).2 !! "_cov"%string
    = Some 1%positive /\
  (run 1 [SessionStart (sample_session None);
          SessionFinish (sample_session None) 0;
          TerminalSummary]
     (pytest_configure sample_config fresh_world).2).1 = Returned () /\
  trace (run 1 [SessionStart (sample_session None);
                SessionFinish (sample_session None) 0;
                TerminalSummary]
           (pytest_configure sample_config fresh_world).2).2
    = [EvRegister "_cov" 1] /\
  summaries
    (trace (run 1 [SessionStart (sample_session None);
                   SessionFinish (sample_session None) 0;
                   TerminalSummary]
              (pytest_configure sample_config fresh_world).2).2) = 0%nat.
Proof. vm_compute. repeat split. Qed.

Lemma at_most_one_summary_witness :
  trace (pytest_terminal_summary 1
           (sample_world 80 (central_plugin plain_options))).2
    = [EvSummary (sample_controller plain_options)] /\
  (summaries
     (trace (run 1 [SessionStart (sample_session None); RuntestSetup;
                    RuntestTeardown; SessionFinish (sample_session None) 0;
                    TerminalSummary]
               (sample_world 80 (central_plugin plain_options))).2)
   <= 1)%nat.
Proof.
  destruct (at_most_one_summary 1
              (sample_world 80 (central_plugin plain_options))
              (central_plugin plain_options) eq_refl)
    as (Hone & _ & Hrun).
  split.
  - exact (proj1 (Hone _ eq_refl eq_refl)).
  - exact (Hrun [SessionStart (sample_session None); RuntestSetup;
                 RuntestTeardown; SessionFinish (sample_session None) 0;
                 TerminalSummary]).
Defined.

(** ** Reachable worlds are well formed *)

(** A call replaces the plugin object by an updated one; the controller it
    holds afterwards is the one it held or a started one; the registry is
    not touched. *)
Lemma call_heap self c w p :
  heap w !! self = Some p ->
  exists p',
    heap (call self c w).2 = <[self := p']> (heap w) /\
    plugins (call self c w).2 = plugins w /\
    (cov_controller p' = cov_controller p \/
     exists e c0, cov_controller p' = Some (cov_core.started e c0)).
Proof.
  intros Hs.
  assert (Hid : heap w = <[self := p]> (heap w))
    by (symmetry; apply insert_id, Hs).
  destruct c as [s | node | node error | | | s x | | child]; cbn [call].
  - rewrite (sessionstart_spec _ _ _ _ Hs).
    destruct (slaveinput (config s)); eexists; world_fields;
      (split; [reflexivity | split; [reflexivity |]]); eauto.
  - rewrite (configure_node_spec _ _ _ _ Hs). exists p.
    destruct (cov_controller p); world_fields; auto.
  - rewrite (testnodedown_spec _ _ _ _ _ Hs). exists p.
    destruct (cov_controller p); world_fields; auto.
  - rewrite (runtest_setup_spec _ _ _ Hs).
    destruct (bool_decide _); [destruct (init_env w) |];
      eexists; world_fields;
      (split; [first [reflexivity | exact Hid] | split; [reflexivity |]]);
      auto.
  - rewrite (runtest_teardown_spec _ _ _ Hs).
    destruct (cov p); eexists; world_fields;
      (split; [first [reflexivity | exact Hid] | split; [reflexivity |]]);
      auto.
  - rewrite (sessionfinish_spec _ _ _ _ _ Hs). eexists. world_fields.
    split; [reflexivity | split; [reflexivity |]]. auto.
  - rewrite (terminal_summary_spec _ _ _ Hs). exists p.
    destruct (cov_controller p); [destruct (_ && _) |];
      rewrite ?check_minimum_trace; world_fields; auto.
  - exists p. unfold modify. world_fields. auto.
Qed.

Lemma well_formed_insert w w' self p' :
  well_formed w ->
  heap w' = <[self := p']> (heap w) ->
  (forall name l, plugins w' !! name = Some l ->
     l = self \/ plugins w !! name = Some l) ->
  (forall c, cov_controller p' = Some c -> is_Some (cov_core.cov c)) ->
  well_formed w'.
Proof.
  intros [Hreg Hctl] Hh Hp Hc. split.
  - intros name l Hl. rewrite Hh.
    destruct (Hp name l Hl) as [-> | Hold].
    + rewrite lookup_insert_eq. eauto.
    + destruct (decide (self = l)) as [-> | Hne].
      * rewrite lookup_insert_eq. eauto.
      * rewrite lookup_insert_ne by done. eauto.
  - intros l p c. rewrite Hh.
    destruct (decide (self = l)) as [-> | Hne].
    + rewrite lookup_insert_eq. intros [= <-]. apply Hc.
    + rewrite lookup_insert_ne by done. apply Hctl.
Qed.

Lemma well_formed_call self c w :
  well_formed w -> plugins w !! "_cov"%string = Some self ->
  well_formed (call self c w).2.
Proof.
  intros Hwf Hreg. destruct (proj1 Hwf _ _ Hreg) as [p Hs].
  destruct (call_heap self c w p Hs) as (p' & Hh & Hp & Hc).
  apply (well_formed_insert w _ self p' Hwf Hh).
  - intros name l. rewrite Hp. auto.
  - intros c0 Hc0. destruct Hc as [Hsame | (e & c1 & Hnew)].
    + rewrite Hsame in Hc0. exact (proj2 Hwf _ _ _ Hs Hc0).
    + rewrite Hnew in Hc0. injection Hc0 as <-. cbn. eauto.
Qed.

(** ** The module-level hooks *)

Lemma register_spec plugin name w :
  register plugin name w =
    if bool_decide (is_Some (plugins w !! name)) then (Raised ValueError, w)
    else
      (Returned (),
       set_plugins (<[name := plugin]> (plugins w))
         (set_trace (trace w ++ [EvRegister name plugin]) w)).
Proof.
  unfold register. munfold.
  destruct (bool_decide (is_Some (plugins w !! name))); reflexivity.
Qed.

Lemma init_idle options w :
  __init__ options false w =
    (Returned (fresh (dom (heap w))),
     set_heap
       (<[fresh (dom (heap w)) :=
            {| pid := None; cov := None; cov_controller := None;
               failed := false; options := options |}]> (heap w))
       w).
Proof. exact (init_spec options false w). Qed.

Lemma init_started options w :
  let cls := if truthy (is_dist options) then cov_core.DistMaster
             else cov_core.Central in
  let c := start_controller cls options None PyNone in
  __init__ options true w =
    (Returned (fresh (dom (heap w))),
     set_heap
       (<[fresh (dom (heap w)) :=
            {| pid := None; cov := None;
               cov_controller :=
                 Some (cov_core.started (Engine (next_engine w)) c);
               failed := false; options := options |}]> (heap w))
       (set_next_engine (N.succ (next_engine w))
          (set_trace (trace w ++ [EvNew c; EvStart c]) w))).
Proof. exact (init_spec options true w). Qed.

Lemma configure_spec config w :
  pytest_configure config w =
    if truthy (PyList (cov_source (cfg_option config)))
       && negb (bool_decide (is_Some (plugins w !! "_cov"%string)))
    then
      let self := fresh (dom (heap w)) in
      (Returned (),
       set_plugins (<["_cov"%string := self]> (plugins w))
         (set_trace (trace w ++ [EvRegister "_cov" self])
            (set_heap
               (<[self := {| pid := None; cov := None; cov_controller := None;
                             failed := false;
                             options := cfg_option config |}]> (heap w))
               w)))
    else (Returned (), w).
Proof.
  unfold pytest_configure.
  destruct (truthy (PyList (cov_source (cfg_option config))));
    [| reflexivity].
  rewrite (bind_returned (hasplugin "_cov") _ w _ w eq_refl).
  destruct (bool_decide (is_Some (plugins w !! "_cov"%string))) eqn:Hreg;
    [reflexivity |].
  cbn [negb andb].
  erewrite bind_returned by apply init_idle.
  rewrite register_spec. world_fields. rewrite Hreg. reflexivity.
Qed.

Lemma load_initial_conftests_spec parser args w :
  pytest_load_initial_conftests parser args w =
    match parse_args parser (defaults (declared parser)) args with
    | Raised e => (Raised e, w)
    | Returned ns =>
        let o := options_of ns in
        if truthy (PyList (cov_source o)) then
          let self := fresh (dom (heap w)) in
          let cls := if truthy (is_dist o) then cov_core.DistMaster
                     else cov_core.Central in
          let c := start_controller cls o None PyNone in
          let p := {| pid := None; cov := None;
                      cov_controller :=
                        Some (cov_core.started (Engine (next_engine w)) c);
                      failed := false; options := o |} in
          if bool_decide (is_Some (plugins w !! "_cov"%string)) then
            (Raised ValueError,
             set_trace (trace w ++ [EvNew c; EvStart c])
               (set_next_engine (N.succ (next_engine w))
                  (set_heap (<[self := p]> (heap w)) w)))
          else
            (Returned (),
             set_plugins (<["_cov"%string := self]> (plugins w))
               (set_trace
                  (trace w ++ [EvNew c; EvStart c; EvRegister "_cov" self])
                  (set_next_engine (N.succ (next_engine w))
                     (set_heap (<[self := p]> (heap w)) w))))
        else (Returned (), w)
    end.
Proof.
  unfold pytest_load_initial_conftests, parse_known_args.
  destruct (parse_args parser (defaults (declared parser)) args) as [ns | e];
    [| reflexivity].
  rewrite (bind_returned (mret (options_of ns)) _ w _ w eq_refl). cbv zeta.
  destruct (truthy (PyList (cov_source (options_of ns)))); [| reflexivity].
  erewrite bind_returned by apply init_started.
  rewrite register_spec. world_fields.
  destruct (bool_decide (is_Some (plugins w !! "_cov"%string)));
    [reflexivity |].
  world_fields. rewrite <- app_assoc. reflexivity.
Qed.

(** The early hook where no ['_cov'] plugin is registered yet. *)
Lemma load_initial_conftests_free parser args w :
  plugins w !! "_cov"%string = None ->
  pytest_load_initial_conftests parser args w =
    match parse_args parser (defaults (declared parser)) args with
    | Raised e => (Raised e, w)
    | Returned ns =>
        let o := options_of ns in
        if truthy (PyList (cov_source o)) then
          let self := fresh (dom (heap w)) in
          let cls := if truthy (is_dist o) then cov_core.DistMaster
                     else cov_core.Central in
          let c := start_controller cls o None PyNone in
          (Returned (),
           set_plugins (<["_cov"%string := self]> (plugins w))
             (set_trace (trace w ++ [EvNew c; EvStart c; EvRegister "_cov" self])
                (set_next_engine (N.succ (next_engine w))
                   (set_heap
                      (<[self := {| pid := None; cov := None;
                                    cov_controller :=
                                      Some (cov_core.started
                                              (Engine (next_engine w)) c);
                                    failed := false; options := o |}]>
                         (heap w))
                      w))))
        else (Returned (), w)
    end.
Proof.
  intros Hfree. rewrite load_initial_conftests_spec, Hfree.
  rewrite bool_decide_eq_false_2 by (by intros [? ?]). reflexivity.
Qed.

Lemma well_formed_initial w :
  heap w = ∅ -> plugins w = ∅ -> well_formed w.
Proof.
  intros Hh Hp. split.
  - intros name l. by rewrite Hp, lookup_empty.
  - intros l p c. by rewrite Hh, lookup_empty.
Qed.

Lemma registered_after_insert (name0 name : string) (self l : positive)
    (m : gmap string positive) :
  <[name0 := self]> m !! name = Some l -> l = self \/ m !! name = Some l.
Proof.
  destruct (decide (name0 = name)) as [-> | Hne].
  - rewrite lookup_insert_eq. intros [= <-]. by left.
  - rewrite lookup_insert_ne by done. by right.
Qed.

Lemma well_formed_configure config w :
  well_formed w -> well_formed (pytest_configure config w).2.
Proof.
  intros Hwf. rewrite configure_spec.
  destruct (_ && _); [| exact Hwf]. cbv zeta.
  eapply (well_formed_insert w _ _ _ Hwf); world_fields.
  - reflexivity.
  - intros name l. apply registered_after_insert.
  - discriminate.
Qed.

Lemma well_formed_load_initial_conftests parser args w :
  well_formed w -> well_formed (pytest_load_initial_conftests parser args w).2.
Proof.
  intros Hwf. rewrite load_initial_conftests_spec.
  destruct (parse_args _ _ _) as [ns | e]; [| exact Hwf]. cbv zeta.
  destruct (truthy _); [| exact Hwf].
  destruct (bool_decide _);
    eapply (well_formed_insert w _ _ _ Hwf); world_fields.
  - reflexivity.
  - intros name l. by right.
  - intros c [= <-]. cbn. eauto.
  - reflexivity.
  - intros name l. apply registered_after_insert.
  - intros c [= <-]. cbn. eauto.
Qed.

Lemma reachable_well_formed w : reachable w -> well_formed w.
Proof.
  induction 1 as [w Hh Hp | w parser args _ IH | w config _ IH
                 | w self c _ IH Hreg].
  - by apply well_formed_initial.
  - by apply well_formed_load_initial_conftests.
  - by apply well_formed_configure.
  - by apply well_formed_call.
Qed.

(** ** pytest_funcarg__cov *)

Lemma funcarg_spec w :
  pytest_funcarg__cov w =
    match plugins w !! "_cov"%string with
    | Some plugin =>
        match heap w !! plugin with
        | Some p =>
            match cov_controller p with
            | Some c => (Returned (cov_core.cov c), w)
            | None => (Returned None, w)
            end
        | None => (Raised AttributeError, w)
        end
    | None => (Returned None, w)
    end.
Proof.
  unfold pytest_funcarg__cov. munfold.
  destruct (plugins w !! "_cov"%string) as [plugin |] eqn:E.
  - rewrite bool_decide_eq_true_2 by eauto. munfold. rewrite E.
    destruct (heap w !! plugin) as [p |]; [| reflexivity].
    destruct (cov_controller p); reflexivity.
  - rewrite bool_decide_eq_false_2; [reflexivity |]. by intros [? ?].
Qed.

(** C7.  In every world the process can reach, the funcarg returns the
    engine of the controller that the plugin registered as ['_cov'] holds at
    that moment, and [None] when no plugin is registered under that name or
    the registered plugin holds no controller. *)
Theorem funcarg_cov w :
  reachable w ->
  (forall plugin, plugins w !! "_cov"%string = Some plugin ->
     exists p, heap w !! plugin = Some p /\
       (forall c, cov_controller p = Some c ->
          exists e, cov_core.cov c = Some e /\
            pytest_funcarg__cov w = (Returned (Some e), w)) /\
       (cov_controller p = None ->
          pytest_funcarg__cov w = (Returned None, w))) /\
  (plugins w !! "_cov"%string = None ->
     pytest_funcarg__cov w = (Returned None, w)).
Proof.
  intros Hr. destruct (reachable_well_formed w Hr) as [Hreg Hctl].
  rewrite funcarg_spec. split.
  - intros plugin Hp. rewrite Hp. destruct (Hreg _ _ Hp) as [p Hs].
    exists p. rewrite Hs. split; [reflexivity |]. split.
    + intros c Hc. rewrite Hc. destruct (Hctl _ _ _ Hs Hc) as [e He].
      exists e. by rewrite He.
    + intros ->. reflexivity.
  - intros ->. reflexivity.
Qed.

Lemma funcarg_cov_witness :
  pytest_funcarg__cov early_world = (Returned (Some (Engine 0)), early_world).
Proof.
  destruct (funcarg_cov early_world
              (reachable_load_initial_conftests fresh_world _ _
                 (reachable_initial fresh_world eq_refl eq_refl)))
    as [Hreg _].
  destruct (Hreg 1%positive eq_refl) as (p & Hp & Hc & _).
  vm_compute in Hp. injection Hp as <-.
  destruct (Hc _ eq_refl) as (e & He & Hf).
  injection He as <-. exact Hf.
Defined.

(** ** The option parser *)

Lemma declared_pytest_addoption parser :
  declared (pytest_addoption parser) = declared parser ++ coverage_options.
Proof.
  unfold pytest_addoption, coverage_options. cbn. by rewrite <- !app_assoc.
Qed.

Lemma lookup_option_app name ds1 ds2 :
  lookup_option name (ds1 ++ ds2) =
    match lookup_option name ds1 with
    | Some d => Some d
    | None => lookup_option name ds2
    end.
Proof.
  unfold lookup_option. induction ds1 as [| d ds1 IH]; [reflexivity |].
  cbn. destruct (String.eqb (opt_name d) name); [reflexivity | exact IH].
Qed.

Lemma defaults_app ds1 ds2 :
  defaults (ds1 ++ ds2) =
    foldl (fun ns d => <[opt_dest d := opt_default d]> ns) (defaults ds1) ds2.
Proof. unfold defaults. apply foldl_app. Qed.

(** The parser refuses a command line with [UsageError] and nothing else. *)
Lemma parse_arg_raises parser ns arg e :
  parse_arg parser ns arg = Raised e -> e = UsageError.
Proof.
  unfold parse_arg. destruct (lookup_option _ _) as [d |]; [| discriminate].
  destruct (opt_action d); [| | discriminate].
  - destruct (convert parser d arg.2); [| congruence].
    destruct (choice_ok d arg.2); congruence.
  - destruct (choice_ok d arg.2); congruence.
Qed.

Lemma parse_args_refuses parser bad args :
  (forall ns, parse_arg parser ns bad = Raised UsageError) ->
  bad ∈ args ->
  forall ns, parse_args parser ns args = Raised UsageError.
Proof.
  intros Hbad. induction args as [| arg args IH]; intros Hin ns.
  - by apply elem_of_nil in Hin.
  - cbn. destruct (parse_arg parser ns arg) as [ns' | e] eqn:E.
    + apply elem_of_cons in Hin as [<- | Hin].
      * rewrite Hbad in E. discriminate.
      * by apply IH.
    + by rewrite (parse_arg_raises _ _ _ _ E).
Qed.

Lemma lookup_cov_report parser :
  lookup_option "--cov-report" (declared parser) = None ->
  lookup_option "--cov-report" (declared (pytest_addoption parser))
    = Some {| opt_name := "--cov-report"; opt_action := append;
              opt_default := PyList []; opt_dest := "cov_report";
              opt_choices := Some ["term"; "term-missing"; "annotate";
                                   "html"; "xml"; ""]%string;
              opt_int := false |}.
Proof.
  intros H. by rewrite declared_pytest_addoption, lookup_option_app, H.
Qed.

Lemma defaults_cov_report parser :
  defaults (declared (pytest_addoption parser)) !! "cov_report"%string
    = Some (PyList []).
Proof.
  rewrite declared_pytest_addoption, defaults_app.
  unfold coverage_options. cbn [foldl opt_dest opt_default].
  rewrite !lookup_insert_ne by done. apply lookup_insert_eq.
Qed.

(** C8.  On a parser to which [pytest_addoption] has added the coverage
    options (and on which nobody else declared [--cov-report]), a report kind
    is accepted exactly when it is one of term, term-missing, annotate, html,
    xml and the empty string.  An accepted kind lands in [cov_report]; any
    other kind, wherever it stands on the command line, makes the parser
    refuse the command line, and the early hook then ends before it has
    constructed a plugin or a controller. *)
Theorem cov_report_choices parser v :
  lookup_option "--cov-report" (declared parser) = None ->
  let kinds := ["term"; "term-missing"; "annotate"; "html"; "xml"; ""]%string in
  (v ∈ kinds ->
     forall w, exists o,
       parse_known_args (pytest_addoption parser) [("--cov-report"%string, v)] w
         = (Returned o, w) /\
       cov_report o = [v]) /\
  (v ∉ kinds ->
     forall args w, ("--cov-report"%string, v) ∈ args ->
       parse_known_args (pytest_addoption parser) args w
         = (Raised UsageError, w) /\
       pytest_load_initial_conftests (pytest_addoption parser) args w
         = (Raised UsageError, w)).
Proof.
  intros Hfree kinds. split.
  - intros Hv w. unfold parse_known_args. cbn [parse_args].
    unfold parse_arg. cbn [fst snd].
    rewrite (lookup_cov_report _ Hfree). cbn [opt_action opt_dest].
    unfold choice_ok. cbn [opt_choices].
    rewrite bool_decide_eq_true_2 by exact Hv.
    rewrite defaults_cov_report. eexists. split; [reflexivity |].
    unfold options_of. cbn [cov_report]. by rewrite lookup_insert_eq.
  - intros Hv args w Hin.
    assert (Hparse : parse_args (pytest_addoption parser)
                       (defaults (declared (pytest_addoption parser))) args
                     = Raised UsageError).
    { apply (parse_args_refuses _ ("--cov-report"%string, v)); [| exact Hin].
      intros ns. unfold parse_arg. cbn [fst snd].
      rewrite (lookup_cov_report _ Hfree). cbn [opt_action].
      unfold choice_ok. cbn [opt_choices].
      by rewrite bool_decide_eq_false_2 by exact Hv. }
    split.
    + unfold parse_known_args. by rewrite Hparse.
    + rewrite load_initial_conftests_spec. by rewrite Hparse.
Qed.

Lemma cov_report_choices_witness :
  pytest_load_initial_conftests (pytest_addoption sample_parser)
    [("--cov", "pkg"); ("--cov-report", "pdf")]%string fresh_world
  = (Raised UsageError, fresh_world).
Proof.
  refine (proj2 (proj2 (cov_report_choices sample_parser "pdf" eq_refl) _
                   [("--cov", "pkg"); ("--cov-report", "pdf")]%string
                   fresh_world _)).
  - intros H. repeat (apply elem_of_cons in H as [H | H]; [discriminate |]).
    by apply elem_of_nil in H.
  - apply list_elem_of_further, list_elem_of_here.
Defined.

(** ** Registration *)

Ltac count_registrations :=
  unfold registrations; world_fields;
  rewrite ?List.filter_app, ?length_app;
  cbn [List.filter is_register length String.eqb Ascii.eqb Bool.eqb]; lia.

Lemma configure_registered config w :
  is_Some (plugins w !! "_cov"%string) ->
  pytest_configure config w = (Returned (), w).
Proof.
  intros H. rewrite configure_spec, (bool_decide_eq_true_2 _ H).
  by rewrite andb_false_r.
Qed.

Lemma configure_unsourced config w :
  cov_source (cfg_option config) = [] ->
  pytest_configure config w = (Returned (), w).
Proof. intros H. rewrite configure_spec, H. reflexivity. Qed.

Lemma configure_registrations config w :
  (registrations "_cov" (trace (pytest_configure config w).2)
   <= registrations "_cov" (trace w) + 1)%nat.
Proof.
  rewrite configure_spec. destruct (_ && _); cbv zeta; count_registrations.
Qed.

(** C10.  In the configuration phase of a config on which no ['_cov'] plugin
    is registered yet, at most one plugin is registered under that name; when
    no source path is configured, neither on the command line the early hook
    parses nor in the config's options, nothing is registered and no
    controller is created; and [pytest_configure] registers nothing when a
    ['_cov'] plugin is already registered. *)
Theorem cov_plugin_registered_once early parser args config w :
  plugins w !! "_cov"%string = None ->
  let w' := (configure_phase early parser args config w).2 in
  (registrations "_cov" (trace w') <= registrations "_cov" (trace w) + 1)%nat /\
  ((early = true ->
      forall o, parse_known_args parser args w = (Returned o, w) ->
        cov_source o = []) ->
   cov_source (cfg_option config) = [] ->
   w' = w) /\
  (forall o, early = true ->
     parse_known_args parser args w = (Returned o, w) ->
     cov_source o <> [] ->
     exists self, plugins w' !! "_cov"%string = Some self /\
       registrations "_cov" (trace w') = S (registrations "_cov" (trace w))) /\
  (forall w0, is_Some (plugins w0 !! "_cov"%string) ->
     pytest_configure config w0 = (Returned (), w0)).
Proof.
  intros Hfree w'. subst w'. unfold configure_phase.
  split; [| split; [| split]]; [| | | intros w0; apply configure_registered].
  - destruct early.
    + unfold mbind, M_bind. rewrite (load_initial_conftests_free _ _ _ Hfree).
      destruct (parse_args _ _ _) as [ns | e]; [| cbn; lia]. cbv zeta.
      destruct (truthy _).
      * rewrite configure_registered
          by (world_fields; rewrite lookup_insert_eq; eauto).
        count_registrations.
      * apply configure_registrations.
    + apply configure_registrations.
  - intros Hearly Hconfig. destruct early.
    + unfold mbind, M_bind. rewrite (load_initial_conftests_free _ _ _ Hfree).
      specialize (Hearly eq_refl). unfold parse_known_args in Hearly.
      destruct (parse_args _ _ _) as [ns | e]; [| reflexivity]. cbv zeta.
      rewrite (Hearly _ eq_refl). cbn [truthy negb].
      rewrite bool_decide_eq_true_2 by reflexivity. cbn [negb].
      by rewrite configure_unsourced.
    + cbn. unfold mbind, M_bind, mret, M_ret. by rewrite configure_unsourced.
  - intros o -> Hparse Hsrc.
    unfold mbind, M_bind. rewrite (load_initial_conftests_free _ _ _ Hfree).
    unfold parse_known_args in Hparse.
    destruct (parse_args _ _ _) as [ns | e]; [| discriminate].
    injection Hparse as <-. cbv zeta. cbn [truthy].
    rewrite bool_decide_eq_false_2 by exact Hsrc. cbn [negb].
    rewrite configure_registered
      by (world_fields; rewrite lookup_insert_eq; eauto).
    eexists. world_fields. split; [apply lookup_insert_eq |].
    count_registrations.
Qed.

Lemma cov_plugin_registered_once_witness :
  (registrations "_cov"
     (trace (configure_phase true (pytest_addoption sample_parser)
               [("--cov", "pkg")]%string sample_config fresh_world).2)
   <= 1)%nat.
Proof.
  exact (proj1 (cov_plugin_registered_once true
                  (pytest_addoption sample_parser)
                  [("--cov", "pkg")]%string sample_config fresh_world
                  eq_refl)).
Defined.

(** * Further properties of the hooks *)

(** ** Schedules, call by call *)

Lemma run_cons self c cs w :
  run self (c :: cs) w =
    match call self c w with
    | (Returned _, w') => run self cs w'
    | (Raised e, w') => (Raised e, w')
    end.
Proof. reflexivity. Qed.

Lemma run_app self cs1 : forall cs2 w,
  run self (cs1 ++ cs2) w =
    match run self cs1 w with
    | (Returned _, w') => run self cs2 w'
    | (Raised e, w') => (Raised e, w')
    end.
Proof.
  induction cs1 as [| c cs1 IH]; intros cs2 w; [reflexivity |].
  cbn [app]. rewrite !run_cons.
  destruct (call self c w) as [[[] | e] w']; [apply IH | reflexivity].
Qed.

(** ** The node hooks *)



(** ** The summary hook without a threshold, and where the error comes from *)

(** X2.  With no threshold configured the summary hook still asks for the
    summary once; the comparison of the total with [None] then passes silently
    on Python 2 and is a [TypeError] on Python 3.  A [CoverageError] is not
    raised either way. *)
Theorem terminal_summary_without_minimum self w p c :
  heap w !! self = Some p ->
  cov_controller p = Some c ->
  failed p && no_cov_on_fail (options p) = false ->
  cov_min (options p) = None ->
  pytest_terminal_summary self w =
    (if python3 w then Raised TypeError else Returned (),
     set_trace (trace w ++ [EvSummary c]) w).
Proof.
  intros Hs Hc Hf Hm. rewrite (terminal_summary_spec _ _ _ Hs), Hc, Hf, Hm.
  unfold check_minimum, lt_None. munfold.
  destruct (python3 w); reflexivity.
Qed.

Lemma terminal_summary_without_minimum_witness :
  pytest_terminal_summary 1 (sample_world 80 (central_plugin plain_options))
  = (Returned (),
     set_trace [EvSummary (sample_controller plain_options)]
       (sample_world 80 (central_plugin plain_options))).
Proof.
  exact (terminal_summary_without_minimum 1
           (sample_world 80 (central_plugin plain_options))
           (central_plugin plain_options) (sample_controller plain_options)
           eq_refl eq_refl eq_refl eq_refl).
Defined.

Lemma check_minimum_coverage_error total cov_min w msg :
  (check_minimum total cov_min w).1 = Raised (CoverageError msg) ->
  exists t, cov_min = Some t /\ (total < inject_Z t)%Q /\
    msg = coverage_message t total.
Proof.
  unfold check_minimum, lt_None. destruct cov_min as [t |].
  - destruct (lt_int total t) eqn:E; [| discriminate].
    intros [= <-]. exists t. by apply lt_int_spec in E.
  - munfold. destruct (python3 w); discriminate.
Qed.

Lemma call_coverage_error self c w p msg :
  heap w !! self = Some p ->
  (call self c w).1 = Raised (CoverageError msg) ->
  c = TerminalSummary /\
  failed p && no_cov_on_fail (options p) = false /\
  exists ctl t,
    cov_controller p = Some ctl /\
    cov_min (options p) = Some t /\
    (summary_total w ctl < inject_Z t)%Q /\
    msg = coverage_message t (summary_total w ctl).
Proof.
  intros Hs. destruct c as [s | node | node error | | | s x | | child];
    cbn [call].
  - rewrite (sessionstart_spec _ _ _ _ Hs).
    destruct (slaveinput (config s)); discriminate.
  - rewrite (configure_node_spec _ _ _ _ Hs).
    destruct (cov_controller p); discriminate.
  - rewrite (testnodedown_spec _ _ _ _ _ Hs).
    destruct (cov_controller p); discriminate.
  - rewrite (runtest_setup_spec _ _ _ Hs).
    destruct (bool_decide _); [destruct (init_env w) |]; discriminate.
  - rewrite (runtest_teardown_spec _ _ _ Hs). destruct (cov p); discriminate.
  - rewrite (sessionfinish_spec _ _ _ _ _ Hs). discriminate.
  - rewrite (terminal_summary_spec _ _ _ Hs).
    destruct (cov_controller p) as [ctl |]; [| discriminate].
    destruct (failed p && no_cov_on_fail (options p)); [discriminate |].
    intros H. apply check_minimum_coverage_error in H as (t & Ht & Hlt & ->).
    split; [reflexivity |]. split; [reflexivity |]. by exists ctl, t.
  - discriminate.
Qed.

(** X3.  A [CoverageError] comes out of the summary hook and of no other call,
    and only when reporting is not suppressed, a threshold is configured and
    the total is below it.  A schedule without a terminal-summary call
    therefore never ends in one. *)
Theorem coverage_error_only_below_minimum self w p :
  heap w !! self = Some p ->
  (forall c msg,
     (call self c w).1 = Raised (CoverageError msg) ->
     c = TerminalSummary /\
     failed p && no_cov_on_fail (options p) = false /\
     exists ctl t,
       cov_controller p = Some ctl /\
       cov_min (options p) = Some t /\
       (summary_total w ctl < inject_Z t)%Q /\
       msg = coverage_message t (summary_total w ctl)) /\
  (forall cs msg,
     (run self cs w).1 = Raised (CoverageError msg) ->
     TerminalSummary ∈ cs).
Proof.
  intros Hs. split.
  - intros c msg. by apply call_coverage_error.
  - intros cs. revert w p Hs.
    induction cs as [| c cs IH]; intros w p Hs msg; [discriminate |].
    rewrite run_cons.
    destruct (call_summaries self c w p Hs) as [[p' Hs'] _].
    destruct (call self c w) as [[[] | e] w'] eqn:E; cbn [fst snd] in *.
    + intros H. apply elem_of_cons. right. exact (IH _ _ Hs' _ H).
    + intros [= ->].
      destruct (call_coverage_error self c w p msg Hs) as [-> _].
      * by rewrite E.
      * apply elem_of_cons. by left.
Qed.

Lemma coverage_error_only_below_minimum_witness :
  exists ctl t,
    cov_controller (central_plugin min50_options) = Some ctl /\
    cov_min (options (central_plugin min50_options)) = Some t /\
    (summary_total (sample_world 10 (central_plugin min50_options)) ctl
     < inject_Z t)%Q.
Proof.
  destruct (proj1 (coverage_error_only_below_minimum 1
                     (sample_world 10 (central_plugin min50_options))
                     (central_plugin min50_options) eq_refl)
              TerminalSummary
              "Required test coverage of 50% not reached. Total coverage: 10.00%"
              eq_refl)
    as (_ & _ & ctl & t & H1 & H2 & H3 & _).
  exists ctl, t. auto.
Defined.

(** ** What a schedule leaves alone *)

Lemma call_frame self c w p :
  heap w !! self = Some p ->
  exists p',
    heap (call self c w).2 = <[self := p']> (heap w) /\
    plugins (call self c w).2 = plugins w /\
    options p' = options p /\
    (is_session_finish c = false -> failed p' = failed p).
Proof.
  intros Hs.
  assert (Hid : heap w = <[self := p]> (heap w))
    by (symmetry; apply insert_id, Hs).
  destruct c as [s | node | node error | | | s x | | child];
    cbn [call is_session_finish].
  - rewrite (sessionstart_spec _ _ _ _ Hs).
    destruct (slaveinput (config s)); eexists; world_fields;
      (split; [reflexivity | split; [reflexivity |]]); auto.
  - rewrite (configure_node_spec _ _ _ _ Hs). exists p.
    destruct (cov_controller p); world_fields; auto.
  - rewrite (testnodedown_spec _ _ _ _ _ Hs). exists p.
    destruct (cov_controller p); world_fields; auto.
  - rewrite (runtest_setup_spec _ _ _ Hs).
    destruct (bool_decide _); [destruct (init_env w) |];
      eexists; world_fields;
      (split; [first [reflexivity | exact Hid] | split; [reflexivity |]]);
      auto.
  - rewrite (runtest_teardown_spec _ _ _ Hs).
    destruct (cov p); eexists; world_fields;
      (split; [first [reflexivity | exact Hid] | split; [reflexivity |]]);
      auto.
  - rewrite (sessionfinish_spec _ _ _ _ _ Hs). eexists. world_fields.
    split; [reflexivity | split; [reflexivity |]].
    split; [reflexivity | discriminate].
  - rewrite (terminal_summary_spec _ _ _ Hs). exists p.
    destruct (cov_controller p); [destruct (_ && _) |];
      rewrite ?check_minimum_trace; world_fields; auto.
  - exists p. unfold modify. world_fields. auto.
Qed.

(** X4.  Whatever the host calls on a plugin, and in whatever order, the
    plugin's options stay as they were given to it, other plugin objects and
    the registry are not touched, and [failed] changes in the session-finish
    hook only. *)
Theorem run_keeps_options self cs : forall w p,
  heap w !! self = Some p ->
  exists p',
    heap (run self cs w).2 !! self = Some p' /\
    options p' = options p /\
    (forallb (fun c => negb (is_session_finish c)) cs = true ->
     failed p' = failed p) /\
    (forall other, other <> self ->
       heap (run self cs w).2 !! other = heap w !! other) /\
    plugins (run self cs w).2 = plugins w.
Proof.
  induction cs as [| c cs IH]; intros w p Hs.
  - exists p. cbn. auto.
  - rewrite run_cons.
    destruct (call_frame self c w p Hs) as (p1 & Hh & Hp & Ho & Hf).
    assert (Hs1 : heap (call self c w).2 !! self = Some p1)
      by (rewrite Hh; apply lookup_insert_eq).
    destruct (call self c w) as [[[] | e] w1]; cbn [snd] in *.
    + destruct (IH w1 p1 Hs1) as (p' & Hs' & Ho' & Hf' & Hother & Hreg).
      exists p'. split; [exact Hs' |]. split; [congruence |].
      split; [| split].
      * cbn [forallb]. intros [Hc Hcs]%andb_true_iff.
        rewrite (Hf' Hcs). apply Hf. by apply negb_true_iff.
      * intros other Hne. rewrite (Hother other Hne), Hh.
        by apply lookup_insert_ne.
      * congruence.
    + exists p1. split; [exact Hs1 |]. split; [exact Ho |].
      split; [| split].
      * cbn [forallb]. intros [Hc _]%andb_true_iff.
        apply Hf. by apply negb_true_iff.
      * intros other Hne. rewrite Hh. by apply lookup_insert_ne.
      * exact Hp.
Qed.

Lemma run_keeps_options_witness :
  exists p',
    heap (run 1 [SessionStart (sample_session None); RuntestSetup;
                 SessionFinish (sample_session None) 1; TerminalSummary]
            (sample_world 10 (central_plugin strict_options))).2 !! 1%positive
      = Some p' /\
    options p' = strict_options.
Proof.
  destruct (run_keeps_options 1
              [SessionStart (sample_session None); RuntestSetup;
               SessionFinish (sample_session None) 1; TerminalSummary]
              (sample_world 10 (central_plugin strict_options))
              (central_plugin strict_options) eq_refl)
    as (p' & Hs & Ho & _).
  exists p'. split; [exact Hs | exact Ho].
Defined.

(** ** The per-test hooks over many items *)

(** X5.  In the process that started the session, with no engine kept, the
    per-test hooks do nothing at all, however many tests run. *)
Theorem items_inert_in_session_process self w p :
  heap w !! self = Some p ->
  pid p = Some (os_pid w) ->
  cov p = None ->
  forall cs, forallb is_item_call cs = true ->
    run self cs w = (Returned (), w).
Proof.
  intros Hs Hpid Hcov cs. induction cs as [| c cs IH]; [reflexivity |].
  cbn [forallb]. intros [Hc Hcs]%andb_true_iff. rewrite run_cons.
  destruct c; try discriminate; cbn [call].
  - rewrite (runtest_setup_spec _ _ _ Hs), Hpid.
    rewrite bool_decide_eq_false_2 by (intros H; by apply H). by apply IH.
  - rewrite (runtest_teardown_spec _ _ _ Hs), Hcov. by apply IH.
Qed.

Lemma items_inert_in_session_process_witness :
  run 1 (items 3) (sample_world 80 idle_plugin)
  = (Returned (), sample_world 80 idle_plugin).
Proof.
  exact (items_inert_in_session_process 1 (sample_world 80 idle_plugin)
           idle_plugin eq_refl eq_refl eq_refl (items 3) eq_refl).
Defined.

(** X6.  In a process other than the one that started the session, every test
    asks [cov_core_init.init()] once at its setup; each engine it gets is
    handed to [multiprocessing_finish] at the teardown of the same test,
    before the next test starts, and after the last test none is kept. *)
Theorem items_balanced_in_child self captured n : forall w p,
  heap w !! self = Some p ->
  pid p = Some captured ->
  os_pid w <> captured ->
  cov p = None ->
  (run self (items n) w).1 = Returned () /\
  trace (run self (items n) w).2
    = trace w ++ item_events (init_env w) (next_engine w) n /\
  (cov <$> heap (run self (items n) w).2 !! self) = Some None.
Proof.
  induction n as [| n IH]; intros w p Hs Hpid Hne Hcov.
  - cbn. rewrite app_nil_r, Hs. cbn. by rewrite Hcov.
  - cbn [items item_events]. rewrite run_cons. cbn [call].
    rewrite (runtest_setup_spec _ _ _ Hs), Hpid.
    rewrite bool_decide_eq_true_2 by congruence.
    destruct (init_env w) eqn:Hfound.
    + rewrite run_cons. cbn [call].
      erewrite runtest_teardown_spec by (world_fields; apply lookup_insert_eq).
      cbn [cov set_cov]. world_fields. rewrite insert_insert_eq.
      match goal with
      | |- context [run self (items n) ?w1] =>
          destruct (IH w1 (set_cov None (set_cov (Some (Engine (next_engine w))) p)))
            as (Hr & Ht & Hc)
      end; world_fields;
        [apply lookup_insert_eq | exact Hpid | exact Hne | reflexivity |].
      rewrite Hr, Ht, Hc. world_fields. rewrite Hfound, <- !app_assoc.
      repeat split.
    + rewrite run_cons. cbn [call].
      erewrite runtest_teardown_spec by (world_fields; apply lookup_insert_eq).
      cbn [cov set_cov].
      match goal with
      | |- context [run self (items n) ?w1] =>
          destruct (IH w1 (set_cov None p)) as (Hr & Ht & Hc)
      end; world_fields;
        [apply lookup_insert_eq | exact Hpid | exact Hne | reflexivity |].
      rewrite Hr, Ht, Hc. world_fields. rewrite Hfound, <- !app_assoc.
      repeat split.
Qed.

Lemma items_balanced_in_child_witness :
  trace (run 1 (items 2) (forked_world 80 idle_plugin)).2
  = [EvInit (Some (Engine 1)); EvMultiprocessingFinish (Engine 1);
     EvInit (Some (Engine 2)); EvMultiprocessingFinish (Engine 2)].
Proof.
  exact (proj1 (proj2 (items_balanced_in_child 1 4242 2
                         (forked_world 80 idle_plugin) idle_plugin
                         eq_refl eq_refl ltac:(discriminate) eq_refl))).
Defined.

(** ** Calling a hook again *)





(** X8.  [pytest_configure] can be called again without harm: a second call
    finds the plugin of the first and does nothing.  With a source path
    configured a ['_cov'] plugin is registered afterwards, the one that was
    there or a new one. *)
Theorem configure_idempotent config w :
  pytest_configure config (pytest_configure config w).2
    = (Returned (), (pytest_configure config w).2) /\
  (cov_source (cfg_option config) <> [] ->
   is_Some (plugins (pytest_configure config w).2 !! "_cov"%string)).
Proof.
  rewrite (configure_spec config w).
  destruct (cov_source (cfg_option config)) as [| src srcs] eqn:Hsrc.
  - cbn. split; [| done]. by apply configure_unsourced.
  - cbn [truthy negb andb]. rewrite bool_decide_eq_false_2 by discriminate.
    cbn [negb andb].
    destruct (bool_decide (is_Some (plugins w !! "_cov"%string))) eqn:Hreg;
      cbn [negb].
    + apply bool_decide_eq_true_1 in Hreg.
      split; [by apply configure_registered | done].
    + cbv zeta. world_fields.
      assert (Hnew : is_Some
                (<["_cov"%string := fresh (dom (heap w))]> (plugins w)
                   !! "_cov"%string))
        by (rewrite lookup_insert_eq; eauto).
      split; [| done]. by apply configure_registered.
Qed.

Lemma configure_idempotent_witness :
  is_Some (plugins (pytest_configure sample_config fresh_world).2
             !! "_cov"%string).
Proof.
  refine (proj2 (configure_idempotent sample_config fresh_world) _).
  discriminate.
Defined.

(** ** Whole sessions *)

Lemma run_items_inert self w p n :
  heap w !! self = Some p ->
  pid p = Some (os_pid w) ->
  cov p = None ->
  run self (items n) w = (Returned (), w).
Proof.
  intros Hs Hpid Hcov. induction n as [| n IH]; [reflexivity |].
  cbn [items]. rewrite run_cons. cbn [call].
  rewrite (runtest_setup_spec _ _ _ Hs), Hpid.
  rewrite bool_decide_eq_false_2 by (intros H; by apply H).
  rewrite run_cons. cbn [call].
  by rewrite (runtest_teardown_spec _ _ _ Hs), Hcov.
Qed.







(** X11.  Outside a worker, a plugin registered by [pytest_configure] never
    gets a controller: a whole session calls nothing in the coverage library,
    the summary hook returns without a report or a verdict, the funcarg hands
    out [None], and a node notification fails with [AttributeError]. *)
Theorem configure_only_session_is_idle cfg session n exitstatus node w :
  cov_source (cfg_option cfg) <> [] ->
  plugins w !! "_cov"%string = None ->
  slaveinput (config session) = None ->
  let self := fresh (dom (heap w)) in
  let w1 := (pytest_configure cfg w).2 in
  let r := run self
             (SessionStart session
                :: items n ++ [SessionFinish session exitstatus;
                               TerminalSummary]) w1 in
  r.1 = Returned () /\
  trace r.2 = trace w ++ [EvRegister "_cov" self] /\
  pytest_funcarg__cov r.2 = (Returned None, r.2) /\
  (run self [SessionStart session; ConfigureNode node] w1).1
    = Raised AttributeError.
Proof.
  intros Hsrc Hfree Hslave self w1 r. subst r w1.
  rewrite configure_spec. cbn [truthy].
  rewrite bool_decide_eq_false_2 by exact Hsrc.
  rewrite Hfree, bool_decide_eq_false_2 by (by intros [? ?]).
  cbn [negb andb]. cbv zeta. fold self. world_fields.
  rewrite !run_cons. cbn [call].
  erewrite sessionstart_spec by (world_fields; apply lookup_insert_eq).
  rewrite Hslave. world_fields. rewrite insert_insert_eq.
  split; [| split; [| split]].
  - rewrite run_app.
    erewrite run_items_inert;
      [| world_fields; apply lookup_insert_eq | reflexivity | reflexivity].
    rewrite run_cons. cbn [call].
    erewrite sessionfinish_spec by (world_fields; apply lookup_insert_eq).
    cbn [cov_controller set_pid]. world_fields. rewrite insert_insert_eq.
    rewrite run_cons. cbn [call run].
    erewrite terminal_summary_spec by (world_fields; apply lookup_insert_eq).
    reflexivity.
  - rewrite run_app.
    erewrite run_items_inert;
      [| world_fields; apply lookup_insert_eq | reflexivity | reflexivity].
    rewrite run_cons. cbn [call].
    erewrite sessionfinish_spec by (world_fields; apply lookup_insert_eq).
    cbn [cov_controller set_pid]. world_fields. rewrite insert_insert_eq.
    rewrite run_cons. cbn [call run].
    erewrite terminal_summary_spec by (world_fields; apply lookup_insert_eq).
    cbn [cov_controller set_failed set_pid]. unfold mret, M_ret.
    world_fields.
    by rewrite app_nil_r.
  - rewrite run_app.
    erewrite run_items_inert;
      [| world_fields; apply lookup_insert_eq | reflexivity | reflexivity].
    rewrite run_cons. cbn [call].
    erewrite sessionfinish_spec by (world_fields; apply lookup_insert_eq).
    cbn [cov_controller set_pid]. world_fields. rewrite insert_insert_eq.
    rewrite run_cons. cbn [call run].
    erewrite terminal_summary_spec by (world_fields; apply lookup_insert_eq).
    cbn [cov_controller set_failed set_pid]. unfold mret, M_ret.
    world_fields.
    rewrite funcarg_spec. world_fields. rewrite !lookup_insert_eq.
    reflexivity.
  - rewrite run_cons. cbn [call run].
    erewrite configure_node_spec by (world_fields; apply lookup_insert_eq).
    reflexivity.
Qed.

Lemma configure_only_session_is_idle_witness :
  (run 1 [SessionStart (sample_session None); ConfigureNode (PyStr "gw0")]
     (pytest_configure sample_config fresh_world).2).1
  = Raised AttributeError.
Proof.
  exact (proj2 (proj2 (proj2 (configure_only_session_is_idle sample_config
                         (sample_session None) 0 0 (PyStr "gw0") fresh_world
                         ltac:(discriminate) eq_refl eq_refl)))).
Defined.

(** ** What the calls into the coverage library are made on *)

Ltac in_events H :=
  repeat (apply elem_of_cons in H as [H | H]);
  try (by apply elem_of_nil in H).

Ltac finish_events :=
  world_fields; cbn [cov set_cov set_pid set_failed set_cov_controller];
  split; [| split];
  [ intros ev ctl Hin Hev; in_events Hin; subst ev; cbn in Hev; congruence
  | intros e Hin; in_events Hin; congruence
  | intros e He;
    first [ left; exact He
          | discriminate
          | right; injection He as <-; apply elem_of_cons; by left ] ].

(** The events a call adds, the controller they are addressed to and the
    engine they finish. *)
Lemma call_events self c w p :
  heap w !! self = Some p ->
  exists p' d,
    heap (call self c w).2 = <[self := p']> (heap w) /\
    trace (call self c w).2 = trace w ++ d /\
    (forall ev ctl, ev ∈ d -> event_controller ev = Some ctl ->
       cov_controller p = Some ctl) /\
    (forall e, EvMultiprocessingFinish e ∈ d -> cov p = Some e) /\
    (forall e, cov p' = Some e -> cov p = Some e \/ EvInit (Some e) ∈ d).
Proof.
  intros Hs.
  assert (Hid : heap w = <[self := p]> (heap w))
    by (symmetry; apply insert_id, Hs).
  assert (Hnil : trace w = trace w ++ []) by (by rewrite app_nil_r).
  destruct c as [s | node | node error | | | s x | | child]; cbn [call].
  - rewrite (sessionstart_spec _ _ _ _ Hs).
    destruct (slaveinput (config s)).
    + eexists _, _. world_fields.
      split; [reflexivity | split; [reflexivity |]]. finish_events.
    + eexists _, []. world_fields.
      split; [reflexivity | split; [exact Hnil |]]. finish_events.
  - rewrite (configure_node_spec _ _ _ _ Hs).
    destruct (cov_controller p) as [ctl0 |] eqn:Hctl.
    + exists p. eexists. world_fields.
      split; [exact Hid | split; [reflexivity |]]. finish_events.
    + exists p, []. world_fields.
      split; [exact Hid | split; [exact Hnil |]]. finish_events.
  - rewrite (testnodedown_spec _ _ _ _ _ Hs).
    destruct (cov_controller p) as [ctl0 |] eqn:Hctl.
    + exists p. eexists. world_fields.
      split; [exact Hid | split; [reflexivity |]]. finish_events.
    + exists p, []. world_fields.
      split; [exact Hid | split; [exact Hnil |]]. finish_events.
  - rewrite (runtest_setup_spec _ _ _ Hs).
    destruct (bool_decide _); [destruct (init_env w) |].
    + eexists _, _. world_fields.
      split; [reflexivity | split; [reflexivity |]]. finish_events.
    + eexists _, _. world_fields.
      split; [reflexivity | split; [reflexivity |]]. finish_events.
    + exists p, []. world_fields.
      split; [exact Hid | split; [exact Hnil |]]. finish_events.
  - rewrite (runtest_teardown_spec _ _ _ Hs).
    destruct (cov p) as [e0 |] eqn:Hcov.
    + eexists _, _. world_fields.
      split; [reflexivity | split; [reflexivity |]]. finish_events.
    + exists p, []. world_fields.
      split; [exact Hid | split; [exact Hnil |]]. rewrite Hcov. finish_events.
  - rewrite (sessionfinish_spec _ _ _ _ _ Hs).
    destruct (cov_controller p) as [ctl0 |] eqn:Hctl.
    + eexists _, _. world_fields.
      split; [reflexivity | split; [reflexivity |]]. finish_events.
    + eexists _, _. world_fields.
      split; [reflexivity | split; [reflexivity |]]. finish_events.
  - rewrite (terminal_summary_spec _ _ _ Hs).
    destruct (cov_controller p) as [ctl0 |] eqn:Hctl;
      [destruct (_ && _) |]; rewrite ?check_minimum_trace.
    + exists p, []. world_fields.
      split; [exact Hid | split; [exact Hnil |]]. finish_events.
    + exists p. eexists. world_fields.
      split; [exact Hid | split; [reflexivity |]]. finish_events.
    + exists p, []. world_fields.
      split; [exact Hid | split; [exact Hnil |]]. finish_events.
  - exists p, []. unfold modify. world_fields.
    split; [exact Hid | split; [exact Hnil |]]. finish_events.
Qed.

Lemma engines_tracked_insert w w' self p' d :
  engines_tracked w ->
  heap w' = <[self := p']> (heap w) ->
  trace w' = trace w ++ d ->
  (forall e, cov p' = Some e ->
     EvInit (Some e) ∈ trace w \/ EvInit (Some e) ∈ d) ->
  engines_tracked w'.
Proof.
  intros Hw Hh Ht Hnew l p e. rewrite Hh, Ht.
  destruct (decide (self = l)) as [-> | Hne].
  - rewrite lookup_insert_eq. intros [= <-] He. apply elem_of_app.
    by apply Hnew.
  - rewrite lookup_insert_ne by done. intros Hl He. apply elem_of_app.
    left. by apply (Hw l p e).
Qed.

Lemma reachable_engines_tracked w : reachable w -> engines_tracked w.
Proof.
  induction 1 as [w Hh Hp | w parser args _ IH | w cfg _ IH
                 | w self c Hr IH Hreg].
  - intros l p e. by rewrite Hh, lookup_empty.
  - rewrite load_initial_conftests_spec.
    destruct (parse_args _ _ _) as [ns | e]; [| exact IH]. cbv zeta.
    destruct (truthy _); [| exact IH].
    destruct (bool_decide _);
      eapply (engines_tracked_insert w _ _ _ _ IH); world_fields;
      first [reflexivity | discriminate].
  - rewrite configure_spec. destruct (_ && _); [| exact IH]. cbv zeta.
    eapply (engines_tracked_insert w _ _ _ _ IH); world_fields;
      [reflexivity | reflexivity | discriminate].
  - destruct (proj1 (reachable_well_formed w Hr) _ _ Hreg) as [p Hs].
    destruct (call_events self c w p Hs) as (p' & d & Hh & Ht & _ & _ & Hc).
    apply (engines_tracked_insert w _ self p' d IH Hh Ht).
    intros e He. destruct (Hc e He) as [Hold | Hnew]; [left | by right].
    by apply (IH self p e).
Qed.

(** X12.  In every world a process can reach, whatever the host calls on the
    registered plugin: a notification, a [finish()] or a [summary()] goes to
    the controller the plugin holds, and that controller has been started; and
    [multiprocessing_finish] is given an engine that an earlier
    [cov_core_init.init()] returned. *)
Theorem calls_target_what_was_started w self c :
  reachable w ->
  plugins w !! "_cov"%string = Some self ->
  exists p d,
    heap w !! self = Some p /\
    trace (call self c w).2 = trace w ++ d /\
    (forall ev ctl, ev ∈ d -> event_controller ev = Some ctl ->
       cov_controller p = Some ctl /\ is_Some (cov_core.cov ctl)) /\
    (forall e, EvMultiprocessingFinish e ∈ d ->
       EvInit (Some e) ∈ trace w).
Proof.
  intros Hr Hreg.
  destruct (reachable_well_formed w Hr) as [Hwf Hctl].
  destruct (Hwf _ _ Hreg) as [p Hs].
  destruct (call_events self c w p Hs) as (p' & d & _ & Ht & Hev & Hfin & _).
  exists p, d. split; [exact Hs |]. split; [exact Ht |]. split.
  - intros ev ctl Hin Hc. specialize (Hev ev ctl Hin Hc).
    split; [exact Hev |]. exact (Hctl _ _ _ Hs Hev).
  - intros e Hin.
    exact (reachable_engines_tracked w Hr self p e Hs (Hfin e Hin)).
Qed.

Lemma calls_target_what_was_started_witness :
  exists p d,
    heap early_world !! 1%positive = Some p /\
    trace (call 1 (SessionFinish (sample_session None) 0) early_world).2
      = trace early_world ++ d.
Proof.
  destruct (calls_target_what_was_started early_world 1
              (SessionFinish (sample_session None) 0)
              (reachable_load_initial_conftests fresh_world _ _
                 (reachable_initial fresh_world eq_refl eq_refl))
              eq_refl)
    as (p & d & Hs & Ht & _).
  exists p, d. auto.
Defined.

(** ** From the command line to the controller *)

Lemma to_int_pytest_addoption parser :
  to_int (pytest_addoption parser) = to_int parser.
Proof. reflexivity. Qed.

Lemma lookup_cov parser :
  lookup_option "--cov" (declared parser) = None ->
  lookup_option "--cov" (declared (pytest_addoption parser))
    = Some {| opt_name := "--cov"; opt_action := append;
              opt_default := PyList []; opt_dest := "cov_source";
              opt_choices := None; opt_int := false |}.
Proof.
  intros H. by rewrite declared_pytest_addoption, lookup_option_app, H.
Qed.

Lemma lookup_cov_min parser :
  lookup_option "--cov-min" (declared parser) = None ->
  lookup_option "--cov-min" (declared (pytest_addoption parser))
    = Some {| opt_name := "--cov-min"; opt_action := store;
              opt_default := PyNone; opt_dest := "cov_min";
              opt_choices := None; opt_int := true |}.
Proof.
  intros H. by rewrite declared_pytest_addoption, lookup_option_app, H.
Qed.

(** The defaults of the five coverage options, whatever else is declared. *)
Lemma defaults_coverage parser :
  let ns := defaults (declared (pytest_addoption parser)) in
  ns !! "cov_source"%string = Some (PyList []) /\
  ns !! "cov_report"%string = Some (PyList []) /\
  ns !! "cov_config"%string = Some (PyStr ".coveragerc") /\
  ns !! "no_cov_on_fail"%string = Some (PyBool false) /\
  ns !! "cov_min"%string = Some PyNone.
Proof.
  cbv zeta. rewrite declared_pytest_addoption, defaults_app.
  unfold coverage_options. cbn [foldl opt_dest opt_default].
  repeat split; rewrite ?lookup_insert_ne by done; apply lookup_insert_eq.
Qed.

(** Appending source paths touches [cov_source] and nothing else. *)
Lemma parse_cov_args parser :
  lookup_option "--cov" (declared parser) = None ->
  forall vs ns acc,
    ns !! "cov_source"%string = Some (PyList acc) ->
    exists ns',
      parse_args (pytest_addoption parser) ns (cov_args vs) = Returned ns' /\
      ns' !! "cov_source"%string = Some (PyList (acc ++ vs)) /\
      (forall k, k <> "cov_source"%string -> ns' !! k = ns !! k).
Proof.
  intros Hfree. induction vs as [| v vs IH]; intros ns acc Hacc.
  - exists ns. cbn. by rewrite app_nil_r.
  - cbn [cov_args map parse_args]. unfold parse_arg. cbn [fst snd].
    rewrite (lookup_cov _ Hfree).
    cbn [opt_action opt_dest choice_ok opt_choices]. rewrite Hacc.
    destruct (IH (<["cov_source"%string := PyList (acc ++ [v])]> ns)
                (acc ++ [v]) (lookup_insert_eq _ _ _))
      as (ns' & Hparse & Hsrc & Hother).
    exists ns'. fold (cov_args vs). split; [exact Hparse |].
    split; [by rewrite Hsrc, <- app_assoc |].
    intros k Hk. rewrite (Hother k Hk). by apply lookup_insert_ne.
Qed.

(** X13.  A command line that only names source paths: the paths arrive in
    [cov_source] in the order given and the other coverage options keep their
    defaults.  With no path the early hook leaves the world as it is; with at
    least one, and no ['_cov'] plugin registered yet, it registers a plugin
    whose controller was constructed with those paths, the report kind
    ['term'] and the file [.coveragerc]. *)
Theorem sources_from_command_line parser vs w :
  lookup_option "--cov" (declared parser) = None ->
  (exists o,
     parse_known_args (pytest_addoption parser) (cov_args vs) w
       = (Returned o, w) /\
     cov_source o = vs /\ cov_report o = [] /\
     cov_config o = ".coveragerc"%string /\
     no_cov_on_fail o = false /\ cov_min o = None) /\
  (vs = [] ->
     pytest_load_initial_conftests (pytest_addoption parser) (cov_args vs) w
       = (Returned (), w)) /\
  (vs <> [] -> plugins w !! "_cov"%string = None ->
     exists self c e,
       plugins (pytest_load_initial_conftests (pytest_addoption parser)
                  (cov_args vs) w).2 !! "_cov"%string = Some self /\
       (heap (pytest_load_initial_conftests (pytest_addoption parser)
                (cov_args vs) w).2 !! self ≫= cov_controller)
         = Some (cov_core.started e c) /\
       cov_core.cov_source c = vs /\
       cov_core.cov_report c = ["term"%string] /\
       cov_core.cov_config c = ".coveragerc"%string).
Proof.
  intros Hfree.
  destruct (defaults_coverage parser) as (Dsrc & Drep & Dcfg & Dfail & Dmin).
  destruct (parse_cov_args parser Hfree vs _ [] Dsrc)
    as (ns & Hparse & Hsrc & Hother).
  assert (Ho : cov_source (options_of ns) = vs /\
               cov_report (options_of ns) = [] /\
               cov_config (options_of ns) = ".coveragerc"%string /\
               no_cov_on_fail (options_of ns) = false /\
               cov_min (options_of ns) = None).
  { unfold options_of. cbn [cov_source cov_report cov_config no_cov_on_fail
                            cov_min].
    rewrite Hsrc, !Hother by done. by rewrite Drep, Dcfg, Dfail, Dmin. }
  destruct Ho as (Osrc & Orep & Ocfg & Ofail & Omin).
  split; [| split].
  - exists (options_of ns). unfold parse_known_args. rewrite Hparse.
    repeat split; assumption.
  - intros ->. rewrite load_initial_conftests_spec, Hparse.
    cbv beta iota zeta. by rewrite Osrc.
  - intros Hvs Hreg. rewrite (load_initial_conftests_free _ _ _ Hreg), Hparse.
    cbv beta iota zeta. rewrite Osrc. cbn [truthy]. rewrite bool_decide_eq_false_2 by exact Hvs.
    cbn [negb]. eexists _, _, _. world_fields. rewrite !lookup_insert_eq.
    split; [reflexivity |]. split; [reflexivity |].
    unfold start_controller.
    cbn [cov_core.cov_source cov_core.cov_report cov_core.cov_config
         cov_core.new].
    rewrite Osrc, Orep, Ocfg. repeat split.
Qed.

Lemma sources_from_command_line_witness :
  exists o,
    parse_known_args (pytest_addoption sample_parser)
      (cov_args ["pkg"; "lib"]%string) fresh_world
      = (Returned o, fresh_world) /\
    cov_source o = ["pkg"; "lib"]%string.
Proof.
  destruct (proj1 (sources_from_command_line sample_parser
                     ["pkg"; "lib"]%string fresh_world eq_refl))
    as (o & Hparse & Hsrc & _).
  exists o. auto.
Defined.

(** X14.  [--cov-min] takes an integer: a value the parser converts becomes
    the threshold, and a value it cannot convert makes it refuse the command
    line, wherever the option stands, so that the early hook ends before it
    constructs a plugin. *)
Theorem cov_min_from_command_line parser v :
  lookup_option "--cov-min" (declared parser) = None ->
  (forall z, to_int parser v = Some z ->
     forall w, exists o,
       parse_known_args (pytest_addoption parser) [("--cov-min"%string, v)] w
         = (Returned o, w) /\
       cov_min o = Some z) /\
  (to_int parser v = None ->
     forall args w, ("--cov-min"%string, v) ∈ args ->
       pytest_load_initial_conftests (pytest_addoption parser) args w
         = (Raised UsageError, w)).
Proof.
  intros Hfree. split.
  - intros z Hz w. unfold parse_known_args. cbn [parse_args].
    unfold parse_arg. cbn [fst snd]. rewrite (lookup_cov_min _ Hfree).
    cbn [opt_action opt_dest choice_ok opt_choices]. unfold convert.
    cbn [opt_int]. rewrite to_int_pytest_addoption, Hz. cbn.
    eexists. split; [reflexivity |].
    cbn [cov_min options_of]. by rewrite lookup_insert_eq.
  - intros Hz args w Hin. rewrite load_initial_conftests_spec.
    rewrite (parse_args_refuses _ ("--cov-min"%string, v)); [done | | done].
    intros ns. unfold parse_arg. cbn [fst snd].
    rewrite (lookup_cov_min _ Hfree). cbn [opt_action]. unfold convert.
    cbn [opt_int]. by rewrite to_int_pytest_addoption, Hz.
Qed.

Lemma cov_min_from_command_line_witness :
  pytest_load_initial_conftests (pytest_addoption sample_parser)
    [("--cov", "pkg"); ("--cov-min", "high")]%string fresh_world
  = (Raised UsageError, fresh_world).
Proof.
  refine (proj2 (cov_min_from_command_line sample_parser "high" eq_refl)
            eq_refl _ fresh_world _).
  apply list_elem_of_further, list_elem_of_here.
Defined.
